(** * DuckyScript compiler (compiler.py): shallow embedding and properties

    The compiler turns a line-oriented keystroke script into a flat byte
    payload of 2-byte instructions.  The embedding follows compiler.py
    function by function:

    - Python [str] values are [string]s; the model covers ASCII scripts, so
      [str.upper]/[str.lower] act on the letters a-z / A-Z and whitespace is
      the ASCII whitespace of [str.isspace] (codes 9-13, 28-32);
    - the payload is a Python list of ints, modelled as [list Z];
    - [print] is an output effect, modelled by a writer of diagnostics;
    - exceptions raised inside the [try] block are values of type [exn];
    - [int] is unbounded decimal parsing (the interpreter's configurable
      limit on the number of digits is not modelled). *)

From Equations Require Import Equations.
From Stdlib Require Import ZArith List Ascii String Bool Lia Arith Wellfounded.
From Stdlib Require Import Decimal DecimalString DecimalN DecimalPos.
Import ListNotations.
Open Scope string_scope.
Open Scope list_scope.
Open Scope Z_scope.

(** ** Python string primitives *)

Module Py.

Definition isspace (c : ascii) : bool :=
  let n := N_of_ascii c in
  (((9 <=? n) && (n <=? 13)) || ((28 <=? n) && (n <=? 32)))%N.

Definition upper_char (c : ascii) : ascii :=
  let n := N_of_ascii c in
  if ((97 <=? n) && (n <=? 122))%N then ascii_of_N (n - 32) else c.

Definition lower_char (c : ascii) : ascii :=
  let n := N_of_ascii c in
  if ((65 <=? n) && (n <=? 90))%N then ascii_of_N (n + 32) else c.

(** [s.upper()] and [s.lower()] *)
Fixpoint upper (s : string) : string :=
  match s with
  | EmptyString => EmptyString
  | String c r => String (upper_char c) (upper r)
  end.

Fixpoint lower (s : string) : string :=
  match s with
  | EmptyString => EmptyString
  | String c r => String (lower_char c) (lower r)
  end.

(** [s.startswith(p)] *)
Fixpoint startswith (s p : string) : bool :=
  match p, s with
  | EmptyString, _ => true
  | String a p', String b s' => Ascii.eqb a b && startswith s' p'
  | String _ _, EmptyString => false
  end.

(** [needle in hay] for two strings: substring test *)
Fixpoint contains (hay needle : string) : bool :=
  startswith hay needle ||
  match hay with
  | EmptyString => false
  | String _ h => contains h needle
  end.

(** [x in (a, b, ...)] for a tuple of strings *)
Definition mem (x : string) (t : list string) : bool :=
  existsb (String.eqb x) t.

(** [s.strip()] *)
Fixpoint lstrip (s : string) : string :=
  match s with
  | EmptyString => EmptyString
  | String c r => if isspace c then lstrip r else s
  end.

Fixpoint rstrip (s : string) : string :=
  match s with
  | EmptyString => EmptyString
  | String c r =>
      let r' := rstrip r in
      if isspace c && String.eqb r' "" then "" else String c r'
  end.

Definition strip (s : string) : string := rstrip (lstrip s).

(** [s.split()]: maximal runs of non-whitespace characters *)
Fixpoint split (s : string) : list string :=
  match s with
  | EmptyString => []
  | String c r =>
      if isspace c then split r
      else match r with
           | EmptyString => [String c ""]
           | String c' _ =>
               if isspace c' then String c "" :: split r
               else match split r with
                    | t :: ts => String c t :: ts
                    | [] => [String c ""]
                    end
           end
  end.

(** [s[n:]] *)
Fixpoint drop (n : nat) (s : string) : string :=
  match n, s with
  | O, _ => s
  | S _, EmptyString => EmptyString
  | S n', String _ r => drop n' r
  end.

(** Exceptions the compiler's [try] block can see. *)
Inductive exn : Type :=
| ValueError (literal : string)   (* invalid literal for int() with base 10 *)
| IndexError.                     (* list index out of range *)

Definition is_digit (c : ascii) : bool :=
  let n := N_of_ascii c in ((48 <=? n) && (n <=? 57))%N.

Definition digit_val (c : ascii) : Z := Z.of_N (N_of_ascii c) - 48.

(** Digits of an [int] literal; single underscores may separate digits.
    [sep] tells that the previous position was not a digit. *)
Fixpoint int_digits (sep : bool) (acc : Z) (s : string) : option Z :=
  match s with
  | EmptyString => if sep then None else Some acc
  | String c r =>
      if is_digit c then int_digits false (10 * acc + digit_val c) r
      else if Ascii.eqb c "_" && negb sep then int_digits true acc r
      else None
  end.

(** [int(s)]: surrounding whitespace, an optional sign, then digits. *)
Definition int (s : string) : exn + Z :=
  let t := strip s in
  let r :=
    match t with
    | String "-" d => option_map Z.opp (int_digits true 0 d)
    | String "+" d => int_digits true 0 d
    | _ => int_digits true 0 t
    end in
  match r with
  | Some z => inr z
  | None => inl (ValueError s)
  end.

(** [parts[i]] *)
Definition index (parts : list string) (i : nat) : exn + string :=
  match nth_error parts i with
  | Some p => inr p
  | None => inl IndexError
  end.

(** [payload[-2:]] *)
Definition last2 {A} (l : list A) : list A := skipn (List.length l - 2) l.

(** [str(n)] for a non-negative integer *)
Definition str (n : Z) : string := NilEmpty.string_of_uint (N.to_uint (Z.to_N n)).

End Py.

(** ** Symbol tables *)

Definition dict := list (string * Z).

(** [d.get(k)]: [None] when [k not in d] *)
Fixpoint lookup (d : dict) (k : string) : option Z :=
  match d with
  | [] => None
  | (k', v) :: d' => if String.eqb k k' then Some v else lookup d' k
  end.

(** [k in d] *)
Definition has_key (d : dict) (k : string) : bool :=
  match lookup d k with Some _ => true | None => false end.

Definition KEYCODES : dict :=
  [ ("a", 0x04); ("b", 0x05); ("c", 0x06); ("d", 0x07); ("e", 0x08); ("f", 0x09);
    ("g", 0x0a); ("h", 0x0b); ("i", 0x0c); ("j", 0x0d); ("k", 0x0e); ("l", 0x0f);
    ("m", 0x10); ("n", 0x11); ("o", 0x12); ("p", 0x13); ("q", 0x14); ("r", 0x15);
    ("s", 0x16); ("t", 0x17); ("u", 0x18); ("v", 0x19); ("w", 0x1a); ("x", 0x1b);
    ("y", 0x1c); ("z", 0x1d);
    ("1", 0x1e); ("2", 0x1f); ("3", 0x20); ("4", 0x21); ("5", 0x22);
    ("6", 0x23); ("7", 0x24); ("8", 0x25); ("9", 0x26); ("0", 0x27);
    (",", 0x36); (".", 0x37); ("/", 0x38); (";", 0x33); ("'", 0x34);
    ("[", 0x2f); ("]", 0x30); ("\", 0x31); ("-", 0x2d); ("=", 0x2e);
    ("`", 0x35); (" ", 0x2c) ].

Definition dquote : string := String (ascii_of_nat 34) "".

Definition SHIFT_CHARS : dict :=
  [ ("A", 0x04); ("B", 0x05); ("C", 0x06); ("D", 0x07); ("E", 0x08); ("F", 0x09);
    ("G", 0x0a); ("H", 0x0b); ("I", 0x0c); ("J", 0x0d); ("K", 0x0e); ("L", 0x0f);
    ("M", 0x10); ("N", 0x11); ("O", 0x12); ("P", 0x13); ("Q", 0x14); ("R", 0x15);
    ("S", 0x16); ("T", 0x17); ("U", 0x18); ("V", 0x19); ("W", 0x1a); ("X", 0x1b);
    ("Y", 0x1c); ("Z", 0x1d);
    ("!", 0x1e); ("@", 0x1f); ("#", 0x20); ("$", 0x21); ("%", 0x22);
    ("^", 0x23); ("&", 0x24); ("*", 0x25); ("(", 0x26); (")", 0x27);
    ("<", 0x36); (">", 0x37); ("?", 0x38); (":", 0x33); (dquote, 0x34);
    ("{", 0x2f); ("}", 0x30); ("|", 0x31); ("_", 0x2d); ("+", 0x2e);
    ("~", 0x35) ].

Definition SPECIAL_KEYS : dict :=
  [ ("ENTER", 0x28); ("RETURN", 0x28);
    ("ESCAPE", 0x29); ("ESC", 0x29);
    ("BACKSPACE", 0x2a); ("BSPACE", 0x2a);
    ("TAB", 0x2b);
    ("SPACE", 0x2c);
    ("CAPSLOCK", 0x39);
    ("F1", 0x3a); ("F2", 0x3b); ("F3", 0x3c); ("F4", 0x3d); ("F5", 0x3e); ("F6", 0x3f);
    ("F7", 0x40); ("F8", 0x41); ("F9", 0x42); ("F10", 0x43); ("F11", 0x44); ("F12", 0x45);
    ("PRINTSCREEN", 0x46);
    ("SCROLLLOCK", 0x47);
    ("PAUSE", 0x48); ("BREAK", 0x48);
    ("INSERT", 0x49);
    ("HOME", 0x4a);
    ("PAGEUP", 0x4b);
    ("DELETE", 0x4c); ("DEL", 0x4c);
    ("END", 0x4d);
    ("PAGEDOWN", 0x4e);
    ("RIGHT", 0x4f); ("RIGHTARROW", 0x4f);
    ("LEFT", 0x50); ("LEFTARROW", 0x50);
    ("DOWN", 0x51); ("DOWNARROW", 0x51);
    ("UP", 0x52); ("UPARROW", 0x52);
    ("NUMLOCK", 0x53);
    ("APP", 0x65); ("MENU", 0x65) ].

Definition MOD_NONE : Z := 0x00.
Definition MOD_CTRL : Z := 0x01.
Definition MOD_SHIFT : Z := 0x02.
Definition MOD_ALT : Z := 0x04.
Definition MOD_GUI : Z := 0x08.

(** ** Diagnostics written to standard output *)

Inductive diag : Type :=
| UnknownCharacter (char : ascii)
| UnknownKey (part : string)
| UnknownCommand (line_num : nat) (line : string)
| ErrorOnLine (line_num : nat) (e : Py.exn).

(** A computation that returns a value and prints diagnostics. *)
Definition W (A : Type) : Type := A * list diag.

Definition ret {A} (a : A) : W A := (a, []).

Definition bind {A B} (m : W A) (f : A -> W B) : W B :=
  let (a, o1) := m in
  let (b, o2) := f a in
  (b, o1 ++ o2).

Definition print (d : diag) : W unit := (tt, [d]).

Notation "x <- m ;; k" := (bind m (fun x => k))
  (at level 61, m at next level, right associativity).
Notation "m ;;; k" := (bind m (fun _ => k))
  (at level 61, right associativity).

(** ** Delay encoder *)

(** One pass through the body of the [while ms > 0] loop. *)
Definition delay_body (s : Z * list Z) : Z * list Z :=
  let (ms, result) := s in
  let chunk := Z.min ms 255 in
  (ms - chunk, result ++ [0x00; chunk]).

Equations? encode_delay_loop (ms : Z) (result : list Z) : list Z
  by wf (Z.to_nat ms) lt :=
  encode_delay_loop ms result with Z_lt_dec 0 ms => {
    | left _ =>
        encode_delay_loop (fst (delay_body (ms, result)))
                          (snd (delay_body (ms, result)));
    | right _ => result }.
Proof. simpl. lia. Qed.

Definition encode_delay (ms : Z) : list Z := encode_delay_loop ms [].

(** ** Character and string encoder *)

Definition encode_char (char : ascii) : W (list Z) :=
  let k := String char "" in
  match lookup KEYCODES k with
  | Some code => ret [code; MOD_NONE]
  | None =>
      match lookup SHIFT_CHARS k with
      | Some code => ret [code; MOD_SHIFT]
      | None => print (UnknownCharacter char) ;;; ret []
      end
  end.

Fixpoint encode_string_loop (text : string) (result : list Z) : W (list Z) :=
  match text with
  | EmptyString => ret result
  | String char rest =>
      r <- encode_char char ;;
      encode_string_loop rest (result ++ r)
  end.

Definition encode_string (text : string) : W (list Z) :=
  encode_string_loop text [].

(** ** Key-name lookup *)

Definition get_key_code (key_name : string) : option Z :=
  let key_upper := Py.upper key_name in
  match lookup SPECIAL_KEYS key_upper with
  | Some code => Some code
  | None =>
      let key_lower := Py.lower key_name in
      match lookup KEYCODES key_lower with
      | Some code => Some code
      | None =>
          match lookup SHIFT_CHARS key_name with
          | Some code => Some code
          | None => None
          end
      end
  end.

(** ** Modifier-combo resolver *)

(** One pass through the body of [for part in parts], on the local
    variables [modifier] and [keycode].  The second test is written
    [part_upper in ('SHIFT')] in the source: the parentheses hold a plain
    string, so [in] is the substring test. *)
Definition combo_body (part : string) (s : Z * option Z) : W (Z * option Z) :=
  let (modifier, keycode) := s in
  let part_upper := Py.upper part in
  if Py.mem part_upper ["CTRL"; "CONTROL"] then
    ret (Z.lor modifier MOD_CTRL, keycode)
  else if Py.contains "SHIFT" part_upper then
    ret (Z.lor modifier MOD_SHIFT, keycode)
  else if Py.mem part_upper ["ALT"; "OPTION"] then
    ret (Z.lor modifier MOD_ALT, keycode)
  else if Py.mem part_upper ["GUI"; "WINDOWS"; "COMMAND"; "CMD"; "META"] then
    ret (Z.lor modifier MOD_GUI, keycode)
  else
    let keycode := get_key_code part in
    match keycode with
    | None => print (UnknownKey part) ;;; ret (modifier, keycode)
    | Some _ => ret (modifier, keycode)
    end.

Fixpoint combo_loop (parts : list string) (s : Z * option Z) : W (Z * option Z) :=
  match parts with
  | [] => ret s
  | part :: rest => s' <- combo_body part s ;; combo_loop rest s'
  end.

Definition parse_modifier_combo (line : string) : W (list Z) :=
  let parts := Py.split line in
  s <- combo_loop parts (MOD_NONE, None) ;;
  let (modifier, keycode) := s in
  match keycode with
  | Some code => ret [code; modifier]
  | None =>
      if negb (modifier =? MOD_NONE) then ret [0x00; modifier]
      else ret []
  end.

(** ** Line dispatcher *)

(** The local variables of [compile_script] that live across lines. *)
Record vars : Type := mkVars { payload : list Z; default_delay : Z }.

Definition set_payload (v : vars) (p : list Z) : vars :=
  mkVars p (default_delay v).

Definition set_default_delay (v : vars) (d : Z) : vars :=
  mkVars (payload v) d.

(** How the [try] block ends. *)
Inductive completion : Type :=
| Normal
| Raised (e : Py.exn).

(** [int(line.split()[1])] *)
Definition int_arg (line : string) : Py.exn + Z :=
  match Py.index (Py.split line) 1 with
  | inl e => inl e
  | inr tok => Py.int tok
  end.

Definition MODIFIER_PREFIXES : list string :=
  ["CTRL"; "CONTROL"; "ALT"; "SHIFT"; "GUI"; "WINDOWS"; "COMMAND"; "CMD"].

(** [for _ in range(count): payload.extend(last_instruction)] *)
Definition repeat_extend (count : Z) (last_instruction p : list Z) : list Z :=
  Nat.iter (Z.to_nat count) (fun p => p ++ last_instruction) p.

(** The body of the [try] block: the variables when it is left, and
    whether it was left by an exception. *)
Definition try_block (line_num : nat) (line : string) (v : vars)
  : W (vars * completion) :=
  if Py.startswith line "DEFAULT_DELAY" || Py.startswith line "DEFAULTDELAY" then
    match int_arg line with
    | inl e => ret (v, Raised e)
    | inr n => ret (set_default_delay v n, Normal)
    end
  else if Py.startswith line "DELAY" then
    match int_arg line with
    | inl e => ret (v, Raised e)
    | inr delay_ms => ret (set_payload v (payload v ++ encode_delay delay_ms), Normal)
    end
  else if Py.startswith line "STRING " then
    let text := Py.drop 7 line in
    r <- encode_string text ;;
    ret (set_payload v (payload v ++ r), Normal)
  else if Py.startswith line "STRINGLN " then
    let text := Py.drop 9 line in
    r <- encode_string text ;;
    (* SPECIAL_KEYS['ENTER'] is 0x28 *)
    ret (set_payload v ((payload v ++ r) ++ [0x28; MOD_NONE]), Normal)
  else
    match lookup SPECIAL_KEYS line with
    | Some code => ret (set_payload v (payload v ++ [code; MOD_NONE]), Normal)
    | None =>
        if existsb (Py.startswith (Py.upper line)) MODIFIER_PREFIXES then
          result <- parse_modifier_combo line ;;
          match result with
          | [] => ret (v, Normal)
          | _ => ret (set_payload v (payload v ++ result), Normal)
          end
        else if Py.startswith line "REPEAT" || Py.startswith line "REPLAY" then
          let count :=
            if (1 <? List.length (Py.split line))%nat then int_arg line else inr 1 in
          match count with
          | inl e => ret (v, Raised e)
          | inr count =>
              if (2 <=? List.length (payload v))%nat then
                let last_instruction := Py.last2 (payload v) in
                ret (set_payload v (repeat_extend count last_instruction (payload v)), Normal)
              else ret (v, Normal)
          end
        else
          print (UnknownCommand line_num line) ;;; ret (v, Normal)
    end.

(** The default delay put in front of a command. *)
Definition add_default_delay (v : vars) : vars :=
  if (default_delay v >? 0) && negb (Nat.eqb (List.length (payload v)) 0) then
    set_payload v (payload v ++ encode_delay (default_delay v))
  else v.

(** Lines the loop passes over with [continue] before doing anything. *)
Definition skipped (line : string) : bool :=
  String.eqb line "" || Py.startswith line "REM" || Py.startswith line "//".

(** [try: ... except Exception as e: print(...); continue] *)
Definition try_except (line_num : nat) (line : string) (v : vars) : W vars :=
  r <- try_block line_num line v ;;
  let (v, c) := r in
  match c with
  | Normal => ret v
  | Raised e => print (ErrorOnLine line_num e) ;;; ret v
  end.

(** One pass through the body of [for line_num, line in enumerate(lines, 1)]. *)
Definition loop_body (line_num : nat) (line : string) (v : vars) : W vars :=
  let line := Py.strip line in
  if skipped line then ret v
  else try_except line_num line (add_default_delay v).

Fixpoint compile_loop (line_num : nat) (lines : list string) (v : vars) : W vars :=
  match lines with
  | [] => ret v
  | line :: rest =>
      v' <- loop_body line_num line v ;;
      compile_loop (S line_num) rest v'
  end.

Definition init : vars := mkVars [] 0.

(** [compile_script] on the lines read from the input file: the bytes
    written to the output file, and the diagnostics printed. *)
Definition compile_script (lines : list string) : W (list Z) :=
  v <- compile_loop 1 lines init ;;
  ret (payload v).

(** Diagnostics that report a whole line: the unknown-command warning and
    the message of the [except] handler. *)
Definition is_line_error (d : diag) : bool :=
  match d with
  | UnknownCommand _ _ | ErrorOnLine _ _ => true
  | UnknownCharacter _ | UnknownKey _ => false
  end.

(** [n] copies of [x], concatenated. *)
Definition copies (n : Z) (x : list Z) : list Z := List.concat (repeat x (Z.to_nat n)).

(** The relation between the loop states of two successive tests of
    [while ms > 0] in [encode_delay]. *)
Definition delay_next (s' s : Z * list Z) : Prop :=
  0 < fst s /\ s' = delay_body s.

(** How a [try] block can end: by an exception, with the variables as they
    were and nothing printed; by the unknown-command warning, with the
    variables as they were; or normally, with the payload extended by whole
    instructions and no diagnostic about the line. *)
Inductive try_result (line_num : nat) (line : string) (v : vars)
  : W (vars * completion) -> Prop :=
| TryRaised e : try_result line_num line v ((v, Raised e), [])
| TryUnknown : try_result line_num line v ((v, Normal), [UnknownCommand line_num line])
| TryDone v' out ext :
    payload v' = payload v ++ ext ->
    Nat.Even (List.length ext) ->
    existsb is_line_error out = false ->
    try_result line_num line v ((v', Normal), out).

(** Lines that reach the REPEAT rule. *)
Definition is_repeat (line : string) : bool :=
  Py.startswith line "REPEAT" || Py.startswith line "REPLAY".

(** Strings of decimal digits. *)
Fixpoint all_digits (s : string) : bool :=
  match s with
  | EmptyString => true
  | String c r => Py.is_digit c && all_digits r
  end.

(** ** Reading a payload back *)

(** The instructions of a payload: the pairs of its successive bytes. *)
Fixpoint instructions (p : list Z) : list (Z * Z) :=
  match p with
  | a :: b :: r => (a, b) :: instructions r
  | _ => []
  end.

(** The time a run of delay instructions waits: the sum of their second
    bytes. *)
Definition delay_total (p : list Z) : Z :=
  fold_right (fun i acc => snd i + acc) 0 (instructions p).

(** The test [bytes(payload)] makes on every element before the output
    file is written; it raises [ValueError] on an element that fails it. *)
Definition in_byte_range (b : Z) : bool := (0 <=? b) && (b <? 256).

(** Characters [encode_char] has a code for. *)
Definition encodable (char : ascii) : bool :=
  has_key KEYCODES (String char "") || has_key SHIFT_CHARS (String char "").

(** The bit a token of a combo line stands for when the resolver takes it
    as a modifier: its tests, in its order. *)
Definition modifier_bit (part : string) : option Z :=
  let part_upper := Py.upper part in
  if Py.mem part_upper ["CTRL"; "CONTROL"] then Some MOD_CTRL
  else if Py.contains "SHIFT" part_upper then Some MOD_SHIFT
  else if Py.mem part_upper ["ALT"; "OPTION"] then Some MOD_ALT
  else if Py.mem part_upper ["GUI"; "WINDOWS"; "COMMAND"; "CMD"; "META"] then Some MOD_GUI
  else None.

Definition bit_of (part : string) : Z :=
  match modifier_bit part with Some b => b | None => 0 end.

(** The bits of all the tokens of a line, OR-ed into [m]. *)
Definition modifier_bits (parts : list string) (m : Z) : Z :=
  fold_left (fun m part => Z.lor m (bit_of part)) parts m.

Definition is_modifier (part : string) : bool :=
  match modifier_bit part with Some _ => true | None => false end.

(** Lines that reach the DEFAULT_DELAY rule. *)
Definition is_default_delay (line : string) : bool :=
  Py.startswith line "DEFAULT_DELAY" || Py.startswith line "DEFAULTDELAY".

(** [str(n)] for any integer. *)
Definition str_int (n : Z) : string :=
  if n <? 0 then String "-" (Py.str (- n)) else Py.str n.

(** Strings without whitespace. *)
Fixpoint no_space (s : string) : bool :=
  match s with
  | EmptyString => true
  | String c r => negb (Py.isspace c) && no_space r
  end.

(** Lines that reach the modifier-combination rule. *)
Definition is_combo (line : string) : bool :=
  existsb (Py.startswith (Py.upper line)) MODIFIER_PREFIXES.

(** * Properties *)

(** ** The diagnostics writer *)

Lemma bind_ret_l {A B} (a : A) (f : A -> W B) : bind (ret a) f = f a.
Proof. unfold bind, ret. destruct (f a). reflexivity. Qed.

Lemma fst_bind {A B} (m : W A) (f : A -> W B) : fst (bind m f) = fst (f (fst m)).
Proof. unfold bind. destruct m as [a o]. simpl. destruct (f a). reflexivity. Qed.

Lemma snd_bind {A B} (m : W A) (f : A -> W B) :
  snd (bind m f) = snd m ++ snd (f (fst m)).
Proof. unfold bind. destruct m as [a o]. simpl. destruct (f a). reflexivity. Qed.

Lemma bind_pure {A B} (a : A) (f : A -> W B) (m : W A) :
  m = (a, []) -> bind m f = f a.
Proof. intros ->. apply bind_ret_l. Qed.

(** ** Delay encoder *)

Lemma encode_delay_loop_step ms result :
  encode_delay_loop ms result =
  if 0 <? ms
  then encode_delay_loop (ms - Z.min ms 255) (result ++ [0; Z.min ms 255])
  else result.
Proof.
  rewrite encode_delay_loop_equation_1.
  destruct (Z_lt_dec 0 ms) as [H|H]; simpl.
  - apply Z.ltb_lt in H. rewrite H. reflexivity.
  - apply Z.ltb_nlt in H. rewrite H. reflexivity.
Qed.

Lemma encode_delay_loop_acc ms : forall result,
  encode_delay_loop ms result = result ++ encode_delay ms.
Proof.
  unfold encode_delay.
  induction (Z.lt_wf 0 ms) as [ms _ IH]. intros result.
  rewrite (encode_delay_loop_step ms result), (encode_delay_loop_step ms []).
  destruct (0 <? ms) eqn:E.
  - apply Z.ltb_lt in E.
    rewrite (IH (ms - Z.min ms 255)) by lia.
    rewrite (IH (ms - Z.min ms 255) ltac:(lia) ([] ++ _)).
    simpl. rewrite <- app_assoc. reflexivity.
  - rewrite app_nil_r. reflexivity.
Qed.

Lemma encode_delay_step ms :
  encode_delay ms =
  if 0 <? ms then 0 :: Z.min ms 255 :: encode_delay (ms - Z.min ms 255) else [].
Proof.
  unfold encode_delay at 1. rewrite encode_delay_loop_step.
  destruct (0 <? ms); [|reflexivity].
  rewrite encode_delay_loop_acc. reflexivity.
Qed.

(** C6: [encode_delay] emits [(0x00, min(ms, 255))] and goes on with what is
    left of [ms] while [ms > 0], and emits nothing for [ms <= 0]; the three
    values of the specification are computed. *)
Theorem encode_delay_chunks :
  (forall ms,
     encode_delay ms =
     if ms >? 0
     then [0x00; Z.min ms 255] ++ encode_delay (ms - Z.min ms 255)
     else []) /\
  encode_delay 300 = [0; 255; 0; 45] /\
  encode_delay 0 = [] /\
  encode_delay 255 = [0; 255].
Proof.
  split; [|repeat split; reflexivity].
  intros ms. rewrite encode_delay_step at 1.
  rewrite Z.gtb_ltb. reflexivity.
Qed.

Lemma delay_body_decreases ms result :
  0 < ms ->
  1 <= Z.min ms 255 <= 255 /\ 0 <= fst (delay_body (ms, result)) < ms.
Proof. intros H. simpl. lia. Qed.

Lemma delay_next_wf : well_founded delay_next.
Proof.
  apply (well_founded_lt_compat _ (fun s => Z.to_nat (fst s))).
  intros [ms' r'] [ms r] [Hpos Heq]. simpl in *.
  inversion Heq; subst. lia.
Qed.

Lemma delay_loop_exits ms : forall result,
  exists k : nat,
    fst (Nat.iter k delay_body (ms, result)) <= 0 /\
    snd (Nat.iter k delay_body (ms, result)) = encode_delay_loop ms result /\
    forall j, (j < k)%nat -> 0 < fst (Nat.iter j delay_body (ms, result)).
Proof.
  induction (Z.lt_wf 0 ms) as [ms _ IH]. intros result.
  rewrite encode_delay_loop_step.
  destruct (0 <? ms) eqn:E.
  - apply Z.ltb_lt in E.
    destruct (IH (ms - Z.min ms 255) ltac:(lia) (result ++ [0; Z.min ms 255]))
      as (k & Hexit & Hres & Hguard).
    exists (S k). rewrite Nat.iter_succ_r. repeat split; auto.
    intros [|j] Hj; [simpl; lia|].
    rewrite Nat.iter_succ_r. apply Hguard. lia.
  - apply Z.ltb_ge in E. exists 0%nat. simpl. repeat split; auto.
    intros j Hj. lia.
Qed.

(** C9: the loop of [encode_delay] terminates on every integer.  The
    relation between successive loop states is well-founded; an iteration
    entered with [ms > 0] takes off a chunk between 1 and 255 and leaves a
    non-negative, smaller [ms]; for [ms <= 0] the loop is not entered; and
    from every [ms] some number of iterations reaches the exit test, with the
    guard true at each earlier test and the result of [encode_delay] in the
    accumulator. *)
Theorem encode_delay_terminates :
  well_founded delay_next /\
  (forall ms result,
     if ms >? 0
     then 1 <= Z.min ms 255 <= 255 /\ 0 <= fst (delay_body (ms, result)) < ms
     else encode_delay_loop ms result = result) /\
  (forall ms, exists k : nat,
     fst (Nat.iter k delay_body (ms, [])) <= 0 /\
     snd (Nat.iter k delay_body (ms, [])) = encode_delay ms /\
     forall j, (j < k)%nat -> 0 < fst (Nat.iter j delay_body (ms, []))).
Proof.
  split; [exact delay_next_wf|]. split.
  - intros ms result. rewrite Z.gtb_ltb. destruct (0 <? ms) eqn:E.
    + apply Z.ltb_lt in E. apply delay_body_decreases; assumption.
    + rewrite encode_delay_loop_step, E. reflexivity.
  - intros ms. apply delay_loop_exits.
Qed.

(** ** Even payload length *)

Lemma Even_app {A} (l1 l2 : list A) :
  Nat.Even (List.length l1) -> Nat.Even (List.length l2) ->
  Nat.Even (List.length (l1 ++ l2)).
Proof.
  intros [a Ha] [b Hb]. exists (a + b)%nat. rewrite length_app. lia.
Qed.

Lemma Even_pair {A} (x y : A) : Nat.Even (List.length [x; y]).
Proof. exists 1%nat. reflexivity. Qed.

Lemma Even_nil {A} : Nat.Even (List.length (@nil A)).
Proof. exists 0%nat. reflexivity. Qed.

Create HintDb even.
#[local] Hint Resolve Even_app Even_pair Even_nil : even.

Lemma encode_delay_even ms : Nat.Even (List.length (encode_delay ms)).
Proof.
  induction (Z.lt_wf 0 ms) as [ms _ IH].
  rewrite encode_delay_step. destruct (0 <? ms) eqn:E; auto with even.
  apply Z.ltb_lt in E.
  change (0 :: Z.min ms 255 :: encode_delay (ms - Z.min ms 255))
    with ([0; Z.min ms 255] ++ encode_delay (ms - Z.min ms 255)).
  apply Even_app; auto with even. apply IH. lia.
Qed.

Lemma encode_char_cases char :
  (exists code m, encode_char char = ([code; m], [])) \/
  encode_char char = ([], [UnknownCharacter char]).
Proof.
  unfold encode_char. cbv zeta.
  destruct (lookup KEYCODES (String char "")) as [code|].
  - left. exists code, MOD_NONE. reflexivity.
  - destruct (lookup SHIFT_CHARS (String char "")) as [code|].
    + left. exists code, MOD_SHIFT. reflexivity.
    + right. reflexivity.
Qed.

Lemma encode_char_even char : Nat.Even (List.length (fst (encode_char char))).
Proof.
  destruct (encode_char_cases char) as [(c & m & ->)| ->]; cbn [fst]; auto with even.
Qed.

Lemma encode_string_loop_acc text : forall result,
  fst (encode_string_loop text result) = result ++ fst (encode_string text).
Proof.
  unfold encode_string.
  induction text as [|char rest IH]; intros result; simpl.
  - rewrite app_nil_r. reflexivity.
  - rewrite !fst_bind, IH, (IH (fst (encode_char char))).
    rewrite app_assoc. reflexivity.
Qed.

Lemma encode_string_cons char rest :
  fst (encode_string (String char rest)) =
  fst (encode_char char) ++ fst (encode_string rest).
Proof.
  unfold encode_string at 1. simpl. rewrite fst_bind.
  rewrite encode_string_loop_acc. reflexivity.
Qed.

Lemma encode_string_even text : Nat.Even (List.length (fst (encode_string text))).
Proof.
  induction text as [|char rest IH].
  - exists 0%nat. reflexivity.
  - rewrite encode_string_cons. auto using Even_app, encode_char_even.
Qed.

(** ** Diagnostics of the encoders *)

Lemma encode_string_loop_diags text : forall result,
  existsb is_line_error (snd (encode_string_loop text result)) = false.
Proof.
  induction text as [|char rest IH]; intros result; simpl; [reflexivity|].
  rewrite snd_bind, existsb_app, IH, orb_false_r.
  destruct (encode_char_cases char) as [(c & m & ->)| ->]; reflexivity.
Qed.

Lemma combo_body_diags part s :
  existsb is_line_error (snd (combo_body part s)) = false.
Proof.
  unfold combo_body. destruct s as [modifier keycode].
  repeat match goal with |- context [if ?b then _ else _] => destruct b end;
    reflexivity.
Qed.

Lemma combo_loop_diags parts : forall s,
  existsb is_line_error (snd (combo_loop parts s)) = false.
Proof.
  induction parts as [|part rest IH]; intros s; simpl; [reflexivity|].
  rewrite snd_bind, existsb_app, IH, combo_body_diags. reflexivity.
Qed.

Lemma parse_modifier_combo_diags line :
  existsb is_line_error (snd (parse_modifier_combo line)) = false.
Proof.
  unfold parse_modifier_combo.
  rewrite snd_bind, existsb_app, combo_loop_diags. simpl.
  destruct (fst (combo_loop (Py.split line) (MOD_NONE, None))) as [modifier [code|]];
    [reflexivity|].
  destruct (negb (modifier =? MOD_NONE)); reflexivity.
Qed.

Lemma parse_modifier_combo_even line :
  Nat.Even (List.length (fst (parse_modifier_combo line))).
Proof.
  unfold parse_modifier_combo. rewrite fst_bind.
  destruct (fst (combo_loop (Py.split line) (MOD_NONE, None))) as [modifier [code|]];
    [cbn [fst ret]; auto with even|].
  destruct (negb (modifier =? MOD_NONE)); cbn [fst ret]; auto with even.
Qed.

(** ** REPEAT *)

Lemma copies_succ k (x : list Z) :
  List.concat (repeat x (S k)) = x ++ List.concat (repeat x k).
Proof. reflexivity. Qed.

Lemma repeat_extend_copies count last_instruction : forall p,
  repeat_extend count last_instruction p = p ++ copies count last_instruction.
Proof.
  unfold repeat_extend, copies.
  induction (Z.to_nat count) as [|k IH]; intros p.
  - simpl. rewrite app_nil_r. reflexivity.
  - rewrite Nat.iter_succ_r, IH, copies_succ, app_assoc. reflexivity.
Qed.

Lemma copies_length count x :
  List.length (copies count x) = (Z.to_nat count * List.length x)%nat.
Proof.
  unfold copies. induction (Z.to_nat count) as [|k IH]; [reflexivity|].
  rewrite copies_succ, length_app, IH. simpl. reflexivity.
Qed.

Lemma last2_length {A} (l : list A) :
  (2 <= List.length l)%nat -> List.length (Py.last2 l) = 2%nat.
Proof. intros H. unfold Py.last2. rewrite length_skipn. lia. Qed.

Lemma copies_last2_even count (p : list Z) :
  (2 <= List.length p)%nat ->
  Nat.Even (List.length (copies count (Py.last2 p))).
Proof.
  intros H. rewrite copies_length, last2_length by assumption.
  exists (Z.to_nat count). lia.
Qed.

(** ** The [try] block, case by case *)

Lemma bind_encode_string text (f : list Z -> W (vars * completion)) v' :
  (forall r, f r = ret (v' r, Normal)) ->
  bind (encode_string text) f =
  ((v' (fst (encode_string text)), Normal), snd (encode_string text)).
Proof.
  intros Hf. unfold bind. destruct (encode_string text) as [r o].
  rewrite Hf. unfold ret. rewrite app_nil_r. reflexivity.
Qed.

Ltac try_done ext :=
  apply (TryDone _ _ _ _ _ ext);
  [ cbn [payload set_payload set_default_delay];
    rewrite ?app_nil_r, ?app_assoc; try reflexivity
  | auto using Even_app, encode_delay_even, encode_string_even with even
  | rewrite ?app_nil_r; auto using encode_string_loop_diags ].

Lemma try_block_result line_num line v :
  try_result line_num line v (try_block line_num line v).
Proof.
  unfold try_block.
  destruct (_ || _).
  { destruct (int_arg line) as [e|n]; [apply TryRaised|].
    try_done (@nil Z). }
  destruct (Py.startswith line "DELAY").
  { destruct (int_arg line) as [e|n]; [apply TryRaised|].
    try_done (encode_delay n). }
  destruct (Py.startswith line "STRING ").
  { rewrite (bind_encode_string _ _ (fun r => set_payload v (payload v ++ r)))
      by reflexivity.
    try_done (fst (encode_string (Py.drop 7 line))).
    apply encode_string_loop_diags. }
  destruct (Py.startswith line "STRINGLN ").
  { rewrite (bind_encode_string _ _
               (fun r => set_payload v ((payload v ++ r) ++ [0x28; MOD_NONE])))
      by reflexivity.
    try_done (fst (encode_string (Py.drop 9 line)) ++ [0x28; MOD_NONE]).
    apply encode_string_loop_diags. }
  destruct (lookup SPECIAL_KEYS line) as [code|].
  { try_done [code; MOD_NONE]. }
  destruct (existsb _ MODIFIER_PREFIXES).
  { pose proof (parse_modifier_combo_even line) as Heven.
    pose proof (parse_modifier_combo_diags line) as Hdiag.
    unfold bind. destruct (parse_modifier_combo line) as [result o].
    cbn [fst snd] in Heven, Hdiag.
    destruct result as [|a result].
    - try_done (@nil Z).
    - try_done (a :: result). }
  destruct (_ || _).
  { destruct (if (1 <? _)%nat then _ else _) as [e|count]; [apply TryRaised|].
    destruct (2 <=? List.length (payload v))%nat eqn:E.
    - apply Nat.leb_le in E.
      try_done (copies count (Py.last2 (payload v))).
      + apply repeat_extend_copies.
      + apply copies_last2_even; assumption.
    - try_done (@nil Z). }
  apply TryUnknown.
Qed.

(** ** One line *)

Lemma add_default_delay_payload v :
  payload (add_default_delay v) =
  payload v ++
  (if (default_delay v >? 0) && negb (Nat.eqb (List.length (payload v)) 0)
   then encode_delay (default_delay v) else []).
Proof.
  unfold add_default_delay.
  destruct (_ && _); [reflexivity|]. rewrite app_nil_r. reflexivity.
Qed.

Lemma add_default_delay_default v :
  default_delay (add_default_delay v) = default_delay v.
Proof. unfold add_default_delay. destruct (_ && _); reflexivity. Qed.

Lemma add_default_delay_even v :
  Nat.Even (List.length (payload v)) ->
  Nat.Even (List.length (payload (add_default_delay v))).
Proof.
  intros H. rewrite add_default_delay_payload.
  destruct (_ && _); auto using Even_app, encode_delay_even with even.
Qed.

Lemma try_except_even line_num line v :
  Nat.Even (List.length (payload v)) ->
  Nat.Even (List.length (payload (fst (try_except line_num line v)))).
Proof.
  intros H. unfold try_except. rewrite fst_bind.
  destruct (try_block_result line_num line v) as [e| |v' out ext Hp He Hd];
    cbn [fst snd ret bind print]; try assumption.
  rewrite Hp. apply Even_app; assumption.
Qed.

Lemma loop_body_even line_num line v :
  Nat.Even (List.length (payload v)) ->
  Nat.Even (List.length (payload (fst (loop_body line_num line v)))).
Proof.
  intros H. unfold loop_body. destruct (skipped _); [assumption|].
  apply try_except_even, add_default_delay_even, H.
Qed.

Lemma compile_loop_even lines : forall line_num v,
  Nat.Even (List.length (payload v)) ->
  Nat.Even (List.length (payload (fst (compile_loop line_num lines v)))).
Proof.
  induction lines as [|line rest IH]; intros line_num v H; simpl; [assumption|].
  rewrite fst_bind. apply IH, loop_body_even, H.
Qed.

(** C8: the payload holds an even number of bytes after any prefix of any
    script, and so do the bytes written for the whole script. *)
Theorem payload_length_even (lines : list string) :
  (forall k, Nat.Even (List.length (payload (fst (compile_loop 1 (firstn k lines) init))))) /\
  Nat.Even (List.length (fst (compile_script lines))).
Proof.
  split.
  - intros k. apply compile_loop_even. exists 0%nat. reflexivity.
  - unfold compile_script. rewrite fst_bind. cbn [ret fst].
    apply compile_loop_even. exists 0%nat. reflexivity.
Qed.

(** ** Lines that fail *)

Lemma try_except_line_error line_num line v :
  existsb is_line_error (snd (try_except line_num line v)) = true ->
  fst (try_except line_num line v) = v.
Proof.
  unfold try_except. rewrite fst_bind, snd_bind.
  destruct (try_block_result line_num line v) as [e| |v' out ext Hp He Hd];
    cbn [fst snd ret bind print]; try reflexivity.
  rewrite app_nil_r, Hd. discriminate.
Qed.

(** C2, amended: a line that ends in the [except] handler or in the
    unknown-command warning leaves the default delay as it was and adds to
    the payload only the default delay that goes in front of every command:
    [encode_delay default_delay] when a default delay is set and the payload
    is not empty, nothing otherwise. *)
Theorem failed_line_keeps_state (line_num : nat) (line : string) (v : vars) :
  existsb is_line_error (snd (loop_body line_num line v)) = true ->
  fst (loop_body line_num line v) = add_default_delay v /\
  default_delay (fst (loop_body line_num line v)) = default_delay v /\
  payload (fst (loop_body line_num line v)) =
    payload v ++
    (if (default_delay v >? 0) && negb (Nat.eqb (List.length (payload v)) 0)
     then encode_delay (default_delay v) else []) /\
  (default_delay v <= 0 \/ payload v = [] -> fst (loop_body line_num line v) = v).
Proof.
  intros H.
  assert (E : fst (loop_body line_num line v) = add_default_delay v).
  { unfold loop_body in *. destruct (skipped _); [discriminate H|].
    apply try_except_line_error, H. }
  rewrite E. repeat split.
  - apply add_default_delay_default.
  - apply add_default_delay_payload.
  - intros [Hd|Hp]; unfold add_default_delay.
    + replace (default_delay v >? 0) with false; [reflexivity|].
      symmetry. rewrite Z.gtb_ltb. apply Z.ltb_ge. exact Hd.
    + rewrite Hp. rewrite andb_false_r. reflexivity.
Qed.

(** A default delay is set, the payload is not empty, and the line is not a
    command: the payload grows by the delay. *)
Lemma failed_line_changes_payload :
  let v := mkVars [4; 0] 100 in
  fst (compile_loop 1 ["DEFAULT_DELAY 100"; "STRING a"] init) = v /\
  snd (loop_body 3 "FOOBAR" v) = [UnknownCommand 3 "FOOBAR"] /\
  snd (loop_body 3 "DELAY abc" v) = [ErrorOnLine 3 (Py.ValueError "abc")] /\
  fst (loop_body 3 "FOOBAR" v) = mkVars [4; 0; 0; 100] 100 /\
  fst (loop_body 3 "DELAY abc" v) = mkVars [4; 0; 0; 100] 100 /\
  fst (loop_body 3 "FOOBAR" v) <> v.
Proof. cbv zeta. repeat split; try reflexivity. vm_compute. discriminate. Qed.

Lemma failed_line_keeps_state_witness :
  existsb is_line_error (snd (loop_body 2 "DELAY abc" (mkVars [4; 0] 0))) = true /\
  fst (loop_body 2 "DELAY abc" (mkVars [4; 0] 0)) = mkVars [4; 0] 0.
Proof.
  split; [reflexivity|].
  apply (failed_line_keeps_state 2 "DELAY abc" (mkVars [4; 0] 0)); [reflexivity|].
  left. simpl. lia.
Defined.

(** ** STRING *)

Lemma rstrip_String c r :
  Py.rstrip (String c r) = String c r -> Py.rstrip r = r.
Proof.
  simpl. destruct (Py.isspace c && String.eqb (Py.rstrip r) ""); [discriminate|].
  intros H. injection H. auto.
Qed.

Lemma rstrip_idem s : Py.rstrip (Py.rstrip s) = Py.rstrip s.
Proof.
  induction s as [|c r IH]; [reflexivity|]. simpl.
  destruct (Py.isspace c && String.eqb (Py.rstrip r) "") eqn:E; [reflexivity|].
  simpl. rewrite IH, E. reflexivity.
Qed.

Lemma strip_rstrip s : Py.rstrip (Py.strip s) = Py.strip s.
Proof. apply rstrip_idem. Qed.

Lemma startswith_empty s : Py.startswith s "" = true.
Proof. destruct s; reflexivity. Qed.

Lemma try_block_STRING line_num text v :
  try_block line_num ("STRING " ++ text) v =
  ((set_payload v (payload v ++ fst (encode_string text)), Normal),
   snd (encode_string text)).
Proof.
  unfold try_block. cbn [Py.startswith String.append Ascii.eqb Bool.eqb andb orb Py.drop].
  rewrite startswith_empty.
  apply (bind_encode_string text _ (fun r => set_payload v (payload v ++ r))).
  reflexivity.
Qed.

Lemma try_except_STRING line_num text v :
  try_except line_num ("STRING " ++ text) v =
  (set_payload v (payload v ++ fst (encode_string text)), snd (encode_string text)).
Proof.
  unfold try_except. rewrite try_block_STRING.
  unfold bind, ret. rewrite app_nil_r. reflexivity.
Qed.

Lemma skipped_STRING text : skipped ("STRING " ++ text) = false.
Proof. reflexivity. Qed.

Lemma loop_body_STRING line_num line text v :
  Py.strip line = ("STRING " ++ text)%string ->
  loop_body line_num line v =
    (set_payload (add_default_delay v)
       (payload (add_default_delay v) ++ fst (encode_string text)),
     snd (encode_string text)).
Proof.
  intros H. unfold loop_body. rewrite H, skipped_STRING.
  apply try_except_STRING.
Qed.

(** C3, amended: a line that reads [STRING ] and [text] once trimmed appends
    [encode_string text] (after the default delay); [text] keeps its leading
    spaces, and it has no trailing whitespace, since the line is trimmed
    before it is looked at. *)
Theorem string_line_appends_text (line_num : nat) (line text : string) (v : vars) :
  Py.strip line = ("STRING " ++ text)%string ->
  loop_body line_num line v =
    (set_payload (add_default_delay v)
       (payload (add_default_delay v) ++ fst (encode_string text)),
     snd (encode_string text)) /\
  Py.rstrip text = text /\ text <> "".
Proof.
  intros H. split; [|split].
  - apply loop_body_STRING, H.
  - pose proof (strip_rstrip line) as R. rewrite H in R.
    do 7 apply rstrip_String in R. exact R.
  - intros ->. pose proof (strip_rstrip line) as R. rewrite H in R.
    discriminate R.
Qed.

Lemma string_line_appends_text_witness :
  Py.strip "STRING  a " = "STRING  a" /\
  loop_body 1 "STRING  a " init = (mkVars [0x2c; 0; 0x04; 0] 0, []).
Proof.
  split; [reflexivity|].
  apply (string_line_appends_text 1 "STRING  a " " a" init). reflexivity.
Defined.

(** The line [STRING  a ] of the specification: the trailing space is not
    encoded. *)
Lemma string_trailing_space_dropped :
  fst (encode_string " a ") = [0x2c; 0; 0x04; 0; 0x2c; 0] /\
  payload (fst (loop_body 1 "STRING  a " init)) = [0x2c; 0; 0x04; 0] /\
  payload (fst (loop_body 1 "STRING  a " init)) <>
    payload init ++ fst (encode_string " a ").
Proof. repeat split; try reflexivity. vm_compute. discriminate. Qed.

(** ** Key-name lookup *)

Lemma special_key_entry name code :
  In (name, code) SPECIAL_KEYS ->
  Py.upper name = name /\ lookup SPECIAL_KEYS name = Some code.
Proof.
  intros H. unfold SPECIAL_KEYS in H. simpl in H.
  repeat (destruct H as [H|H]; [injection H as <- <-; split; reflexivity|]).
  contradiction.
Qed.

Lemma get_key_code_special key_name code :
  lookup SPECIAL_KEYS (Py.upper key_name) = Some code ->
  get_key_code key_name = Some code.
Proof. intros H. unfold get_key_code. rewrite H. reflexivity. Qed.

(** C7: every spelling of a named key, upper case, lower case or mixed,
    resolves to the code of the name; the tables are tried in the order
    named keys (token upper-cased), unshifted characters (token
    lower-cased), shifted characters (token as written); and the result is
    [None], not an exception, exactly when none of the three has the
    token. *)
Theorem get_key_code_lookup :
  (forall name code key_name,
     In (name, code) SPECIAL_KEYS ->
     Py.upper key_name = Py.upper name ->
     get_key_code key_name = Some code) /\
  (get_key_code "enter" = get_key_code "ENTER" /\
   get_key_code "ENTER" = get_key_code "Enter" /\
   get_key_code "Enter" = Some 0x28) /\
  (forall key_name code,
     lookup SPECIAL_KEYS (Py.upper key_name) = Some code ->
     get_key_code key_name = Some code) /\
  (forall key_name code,
     lookup SPECIAL_KEYS (Py.upper key_name) = None ->
     lookup KEYCODES (Py.lower key_name) = Some code ->
     get_key_code key_name = Some code) /\
  (forall key_name,
     lookup SPECIAL_KEYS (Py.upper key_name) = None ->
     lookup KEYCODES (Py.lower key_name) = None ->
     get_key_code key_name = lookup SHIFT_CHARS key_name) /\
  (forall key_name,
     get_key_code key_name = None <->
     lookup SPECIAL_KEYS (Py.upper key_name) = None /\
     lookup KEYCODES (Py.lower key_name) = None /\
     lookup SHIFT_CHARS key_name = None).
Proof.
  split; [|split; [|split; [|split; [|split]]]].
  - intros name code key_name Hin Hup.
    destruct (special_key_entry name code Hin) as [Hname Hlook].
    apply get_key_code_special. rewrite Hup, Hname. exact Hlook.
  - repeat split; reflexivity.
  - exact get_key_code_special.
  - intros key_name code H1 H2. unfold get_key_code. rewrite H1, H2. reflexivity.
  - intros key_name H1 H2. unfold get_key_code. rewrite H1, H2.
    destruct (lookup SHIFT_CHARS key_name); reflexivity.
  - intros key_name. unfold get_key_code.
    destruct (lookup SPECIAL_KEYS (Py.upper key_name));
      destruct (lookup KEYCODES (Py.lower key_name));
      destruct (lookup SHIFT_CHARS key_name);
      split; try discriminate; try (intros (? & ? & ?); discriminate); auto.
Qed.

Lemma get_key_code_lookup_witness :
  get_key_code "pAgEuP" = Some 0x4b /\
  get_key_code "Z" = Some 0x1d /\
  get_key_code "?" = Some 0x38 /\
  get_key_code "nosuchkey" = None.
Proof.
  destruct get_key_code_lookup as (Hcase & _ & _ & Hlower & Hshift & Hnone).
  split; [|split; [|split]].
  - apply (Hcase "PAGEUP" 0x4b "pAgEuP"); [|reflexivity].
    unfold SPECIAL_KEYS. simpl. tauto.
  - apply (Hlower "Z" 0x1d); reflexivity.
  - rewrite (Hshift "?"); reflexivity.
  - apply (Hnone "nosuchkey"). repeat split; reflexivity.
Defined.

(** ** Modifier combinations *)

(** C1: the shift test of the resolver is a substring test against the
    string SHIFT, so the token [S] of the line [CTRL S] sets the shift bit
    and is not looked up as a key: the line gives a control-and-shift
    instruction without key instead of control with [0x16]. *)
Theorem shift_test_is_substring :
  (Py.upper "S" = "SHIFT" -> False) /\
  get_key_code "S" = Some 0x16 /\
  Py.contains "SHIFT" (Py.upper "S") = true /\
  parse_modifier_combo "CTRL S" = ([0x00; 0x03], []) /\
  parse_modifier_combo "CTRL SHIFT T" = ([0x00; 0x03], []) /\
  parse_modifier_combo "ALT f" = ([0x00; 0x06], []) /\
  parse_modifier_combo "CTRL C" = ([0x06; 0x01], []) /\
  compile_script ["CTRL S"] = ([0x00; 0x03], []).
Proof. repeat split; try reflexivity. discriminate. Qed.

(** ** Default delay *)

Lemma add_default_delay_instruction v :
  default_delay v > 0 ->
  Nat.Even (List.length (payload v)) ->
  add_default_delay v =
  if (2 <=? List.length (payload v))%nat
  then set_payload v (payload v ++ encode_delay (default_delay v))
  else v.
Proof.
  intros Hd [k Hk]. unfold add_default_delay.
  apply Z.gtb_gt in Hd. rewrite Hd, Hk. cbn [andb].
  destruct k as [|k]; [reflexivity|].
  replace (2 * S k)%nat with (S (S (2 * k))) by lia. reflexivity.
Qed.

Lemma compile_two_strings l1 l2 x y :
  Py.strip l1 = ("STRING " ++ x)%string ->
  Py.strip l2 = ("STRING " ++ y)%string ->
  fst (compile_script ["DEFAULT_DELAY 100"; l1; l2]) =
    fst (encode_string x) ++
    match fst (encode_string x) with [] => [] | _ :: _ => [0; 100] end ++
    fst (encode_string y).
Proof.
  intros H1 H2. unfold compile_script. rewrite fst_bind. cbn [ret fst].
  cbn [compile_loop]. rewrite !fst_bind. cbn [ret fst].
  change (fst (loop_body 1 "DEFAULT_DELAY 100" init)) with (mkVars [] 100).
  rewrite (loop_body_STRING 2 l1 x _ H1). cbn [fst].
  rewrite (loop_body_STRING 3 l2 y _ H2). cbn [fst].
  change (add_default_delay (mkVars [] 100)) with (mkVars [] 100).
  cbn [payload set_payload default_delay app].
  rewrite add_default_delay_payload. cbn [payload default_delay].
  change (encode_delay 100) with [0; 100].
  destruct (fst (encode_string x)) as [|a ex]; cbn [List.length Nat.eqb negb];
    change (100 >? 0) with true; cbn [andb].
  - reflexivity.
  - rewrite <- app_assoc. reflexivity.
Qed.

(** C5: with a default delay set, a line that is not skipped gets
    [encode_delay default_delay] in front of its command exactly when the
    payload already holds an instruction, so nothing precedes the first
    instruction of a script.  After [DEFAULT_DELAY 100], two STRING lines
    give the bytes of the first string, one pair [0, 100], and the bytes of
    the second (no pair when the first string has no byte to separate from
    the second). *)
Theorem default_delay_between_commands :
  (forall line_num line v,
     default_delay v > 0 ->
     skipped (Py.strip line) = false ->
     Nat.Even (List.length (payload v)) ->
     loop_body line_num line v =
       try_except line_num (Py.strip line)
         (if (2 <=? List.length (payload v))%nat
          then set_payload v (payload v ++ encode_delay (default_delay v))
          else v)) /\
  (forall l1 l2 x y,
     Py.strip l1 = ("STRING " ++ x)%string ->
     Py.strip l2 = ("STRING " ++ y)%string ->
     fst (compile_script ["DEFAULT_DELAY 100"; l1; l2]) =
       fst (encode_string x) ++
       match fst (encode_string x) with [] => [] | _ :: _ => [0; 100] end ++
       fst (encode_string y)) /\
  compile_script ["DEFAULT_DELAY 100"; "STRING Hi"; "STRING a"] =
    (fst (encode_string "Hi") ++ [0; 100] ++ fst (encode_string "a"), []) /\
  compile_script ["DEFAULT_DELAY 100"; "STRING Hi"] = (fst (encode_string "Hi"), []).
Proof.
  split; [|split; [|split]].
  - intros line_num line v Hd Hs He. unfold loop_body. rewrite Hs.
    rewrite add_default_delay_instruction by assumption. reflexivity.
  - exact compile_two_strings.
  - reflexivity.
  - reflexivity.
Qed.

Lemma default_delay_between_commands_witness :
  loop_body 3 "ENTER" (mkVars [0x0b; 2] 100) = (mkVars [0x0b; 2; 0; 100; 0x28; 0] 100, []) /\
  loop_body 2 "ENTER" (mkVars [] 100) = (mkVars [0x28; 0] 100, []) /\
  fst (compile_script ["DEFAULT_DELAY 100"; "  STRING  x"; "STRING Y  "]) =
    [0x2c; 0; 0x1b; 0; 0; 100; 0x1c; 2].
Proof.
  destruct default_delay_between_commands as (Hline & Hscript & _).
  split; [|split].
  - rewrite (Hline 3%nat "ENTER" (mkVars [0x0b; 2] 100));
      [reflexivity | reflexivity | reflexivity | exists 1%nat; reflexivity].
  - rewrite (Hline 2%nat "ENTER" (mkVars [] 100));
      [reflexivity | reflexivity | reflexivity | exists 0%nat; reflexivity].
  - rewrite (Hscript "  STRING  x" "STRING Y  " " x" "Y"); reflexivity.
Defined.

(** ** Decimal literals *)

Lemma digit_not_space c : Py.is_digit c = true -> Py.isspace c = false.
Proof.
  destruct c as [[] [] [] [] [] [] [] []]; intros H;
    first [reflexivity | discriminate H].
Qed.

Lemma string_of_uint_digits u : all_digits (NilEmpty.string_of_uint u) = true.
Proof. induction u; simpl; auto. Qed.

Lemma string_of_uint_nonempty u : u <> Nil -> NilEmpty.string_of_uint u <> "".
Proof. destruct u; simpl; congruence. Qed.

Lemma int_digits_digit sep acc c r :
  Py.is_digit c = true ->
  Py.int_digits sep acc (String c r) =
  Py.int_digits false (10 * acc + Py.digit_val c) r.
Proof. intros H. simpl. rewrite H. reflexivity. Qed.

Lemma int_digits_acc u : forall p,
  Py.int_digits false (Zpos p) (NilEmpty.string_of_uint u) =
  Some (Zpos (Pos.of_uint_acc u p)).
Proof.
  induction u as [|u IH|u IH|u IH|u IH|u IH|u IH|u IH|u IH|u IH|u IH]; intros p;
    [reflexivity|..];
    cbn [NilEmpty.string_of_uint Pos.of_uint_acc];
    rewrite int_digits_digit by reflexivity;
    rewrite <- IH; f_equal; unfold Py.digit_val; simpl N_of_ascii; lia.
Qed.

Lemma int_digits_uint u : forall sep,
  u <> Nil ->
  Py.int_digits sep 0 (NilEmpty.string_of_uint u) = Some (Z.of_N (Pos.of_uint u)).
Proof.
  induction u as [|u IH|u IH|u IH|u IH|u IH|u IH|u IH|u IH|u IH|u IH]; intros sep H;
    [congruence|..];
    cbn [NilEmpty.string_of_uint Pos.of_uint];
    rewrite int_digits_digit by reflexivity;
    try (apply (int_digits_acc u)).
  change (10 * 0 + Py.digit_val "0") with 0.
  destruct u; try (apply IH; discriminate). reflexivity.
Qed.

Lemma rstrip_digits s : all_digits s = true -> Py.rstrip s = s.
Proof.
  induction s as [|c r IH]; [reflexivity|]. simpl.
  intros H. apply andb_prop in H. destruct H as [Hc Hr].
  rewrite (digit_not_space c Hc), IH by assumption. reflexivity.
Qed.

Lemma lstrip_digits s : all_digits s = true -> Py.lstrip s = s.
Proof.
  destruct s as [|c r]; [reflexivity|]. simpl.
  intros H. apply andb_prop in H. destruct H as [Hc Hr].
  rewrite (digit_not_space c Hc). reflexivity.
Qed.

Lemma strip_digits s : all_digits s = true -> Py.strip s = s.
Proof.
  intros H. unfold Py.strip. rewrite lstrip_digits, rstrip_digits; auto.
Qed.

Lemma split_digits s : all_digits s = true -> s <> "" -> Py.split s = [s].
Proof.
  induction s as [|c r IH]; [congruence|]. intros H _.
  simpl in H. apply andb_prop in H. destruct H as [Hc Hr].
  cbn [Py.split]. rewrite (digit_not_space c Hc).
  destruct r as [|c' r']; [reflexivity|].
  rewrite IH by (assumption || discriminate).
  simpl in Hr. apply andb_prop in Hr. destruct Hr as [Hc' _].
  rewrite (digit_not_space c' Hc'). reflexivity.
Qed.

Lemma int_unsigned c r :
  Py.is_digit c = true ->
  Py.strip (String c r) = String c r ->
  Py.int (String c r) =
  match Py.int_digits true 0 (String c r) with
  | Some z => inr z
  | None => inl (Py.ValueError (String c r))
  end.
Proof.
  intros Hc Hs. unfold Py.int. rewrite Hs.
  destruct c as [[] [] [] [] [] [] [] []]; first [reflexivity | discriminate Hc].
Qed.

Lemma int_str n : 0 <= n -> Py.int (Py.str n) = inr n.
Proof.
  intros Hn. unfold Py.str.
  assert (Hnil : N.to_uint (Z.to_N n) <> Nil).
  { destruct (Z.to_N n); [discriminate|apply DecimalPos.Unsigned.to_uint_nonnil]. }
  pose proof (string_of_uint_digits (N.to_uint (Z.to_N n))) as Hd.
  pose proof (string_of_uint_nonempty _ Hnil) as Hne.
  pose proof (int_digits_uint _ true Hnil) as Hv.
  destruct (NilEmpty.string_of_uint (N.to_uint (Z.to_N n))) as [|c r] eqn:E;
    [congruence|].
  rewrite int_unsigned.
  - rewrite Hv. f_equal.
    change (Pos.of_uint (N.to_uint (Z.to_N n))) with (N.of_uint (N.to_uint (Z.to_N n))).
    rewrite DecimalN.Unsigned.of_to. apply Z2N.id, Hn.
  - simpl in Hd. apply andb_prop in Hd. tauto.
  - apply strip_digits, Hd.
Qed.

(** ** REPEAT and REPLAY lines *)

Lemma startswith_inv p : forall s,
  Py.startswith s p = true -> exists rest, s = (p ++ rest)%string.
Proof.
  induction p as [|a p IH]; intros s H.
  - exists s. reflexivity.
  - destruct s as [|b s]; [discriminate H|]. simpl in H.
    apply andb_prop in H. destruct H as [Hab Hs].
    apply Ascii.eqb_eq in Hab. subst b.
    destruct (IH s Hs) as [rest ->]. exists rest. reflexivity.
Qed.

Lemma is_repeat_inv line :
  is_repeat line = true ->
  exists rest, line = ("REPEAT" ++ rest)%string \/ line = ("REPLAY" ++ rest)%string.
Proof.
  unfold is_repeat. intros H. apply orb_prop in H.
  destruct H as [H|H]; apply startswith_inv in H; destruct H as [rest H];
    exists rest; auto.
Qed.

Lemma skipped_repeat line : is_repeat line = true -> skipped line = false.
Proof.
  intros H. destruct (is_repeat_inv line H) as [rest [-> | ->]]; reflexivity.
Qed.

Lemma try_block_repeat line_num line v :
  is_repeat line = true ->
  try_block line_num line v =
  match (if (1 <? List.length (Py.split line))%nat then int_arg line else inr 1) with
  | inl e => ret (v, Raised e)
  | inr count =>
      if (2 <=? List.length (payload v))%nat
      then ret (set_payload v
                  (repeat_extend count (Py.last2 (payload v)) (payload v)), Normal)
      else ret (v, Normal)
  end.
Proof.
  intros H. destruct (is_repeat_inv line H) as [rest [-> | ->]].
  - unfold try_block.
    change (Py.startswith ("REPEAT" ++ rest) "DEFAULT_DELAY") with false.
    change (Py.startswith ("REPEAT" ++ rest) "DEFAULTDELAY") with false.
    change (Py.startswith ("REPEAT" ++ rest) "DELAY") with false.
    change (Py.startswith ("REPEAT" ++ rest) "STRING ") with false.
    change (Py.startswith ("REPEAT" ++ rest) "STRINGLN ") with false.
    change (lookup SPECIAL_KEYS ("REPEAT" ++ rest)) with (@None Z).
    change (existsb (Py.startswith (Py.upper ("REPEAT" ++ rest))) MODIFIER_PREFIXES)
      with false.
    change (Py.startswith ("REPEAT" ++ rest) "REPEAT") with (Py.startswith rest "").
    rewrite startswith_empty. reflexivity.
  - unfold try_block.
    change (Py.startswith ("REPLAY" ++ rest) "DEFAULT_DELAY") with false.
    change (Py.startswith ("REPLAY" ++ rest) "DEFAULTDELAY") with false.
    change (Py.startswith ("REPLAY" ++ rest) "DELAY") with false.
    change (Py.startswith ("REPLAY" ++ rest) "STRING ") with false.
    change (Py.startswith ("REPLAY" ++ rest) "STRINGLN ") with false.
    change (lookup SPECIAL_KEYS ("REPLAY" ++ rest)) with (@None Z).
    change (existsb (Py.startswith (Py.upper ("REPLAY" ++ rest))) MODIFIER_PREFIXES)
      with false.
    change (Py.startswith ("REPLAY" ++ rest) "REPEAT") with false.
    change (Py.startswith ("REPLAY" ++ rest) "REPLAY") with (Py.startswith rest "").
    rewrite startswith_empty, orb_true_r. reflexivity.
Qed.

(** A REPEAT or REPLAY line whose count reads [count]: nothing is printed,
    and with an instruction in the payload [count] copies of the last two
    bytes are appended. *)
Lemma try_except_repeat line_num line v count :
  is_repeat line = true ->
  (if (1 <? List.length (Py.split line))%nat then int_arg line else inr 1) = inr count ->
  try_except line_num line v =
  (if (2 <=? List.length (payload v))%nat
   then set_payload v (payload v ++ copies count (Py.last2 (payload v)))
   else v, []).
Proof.
  intros H Hc. unfold try_except. rewrite (try_block_repeat _ _ _ H), Hc.
  destruct (2 <=? List.length (payload v))%nat.
  - rewrite repeat_extend_copies. reflexivity.
  - reflexivity.
Qed.

Lemma rstrip_cons c r :
  Py.rstrip r = r -> r <> "" -> Py.rstrip (String c r) = String c r.
Proof.
  intros H Hne. simpl. rewrite H.
  destruct r; [congruence|]. simpl. rewrite andb_false_r. reflexivity.
Qed.

Lemma strip_keyword_arg c1 c2 c3 c4 c5 c6 d :
  Py.isspace c1 = false ->
  all_digits d = true -> d <> "" ->
  let line := String c1 (String c2 (String c3 (String c4 (String c5
                (String c6 (String " " d)))))) in
  Py.strip line = line.
Proof.
  intros H1 Hd Hne line. unfold Py.strip, line.
  cbn [Py.lstrip]. rewrite H1.
  repeat (apply rstrip_cons; [|discriminate || assumption]).
  apply rstrip_digits, Hd.
Qed.

Lemma repeat_line_count kw d :
  kw = "REPEAT" \/ kw = "REPLAY" ->
  all_digits d = true -> d <> "" ->
  let line := (kw ++ " " ++ d)%string in
  Py.strip line = line /\
  is_repeat line = true /\
  (if (1 <? List.length (Py.split line))%nat then int_arg line else inr 1) = Py.int d.
Proof.
  intros Hkw Hd Hne line.
  assert (Hsplit : Py.split line = [kw; d]).
  { destruct Hkw as [-> | ->]; unfold line.
    - change (Py.split ("REPEAT" ++ " " ++ d)) with ("REPEAT" :: Py.split d).
      rewrite split_digits by assumption. reflexivity.
    - change (Py.split ("REPLAY" ++ " " ++ d)) with ("REPLAY" :: Py.split d).
      rewrite split_digits by assumption. reflexivity. }
  split; [|split].
  - destruct Hkw as [-> | ->]; apply strip_keyword_arg; auto.
  - destruct Hkw as [-> | ->]; unfold is_repeat, line.
    + change (Py.startswith ("REPEAT" ++ " " ++ d) "REPEAT") with true. reflexivity.
    + change (Py.startswith ("REPLAY" ++ " " ++ d) "REPLAY") with true.
      apply orb_true_r.
  - unfold int_arg. rewrite Hsplit. reflexivity.
Qed.

Lemma loop_body_repeat line_num line v count :
  (2 <= List.length (payload v))%nat ->
  Py.strip line = line ->
  is_repeat line = true ->
  (if (1 <? List.length (Py.split line))%nat then int_arg line else inr 1) = inr count ->
  loop_body line_num line v =
  (mkVars (payload (add_default_delay v) ++
           copies count (Py.last2 (payload (add_default_delay v))))
          (default_delay v), []).
Proof.
  intros Hlen Hs Hr Hc. unfold loop_body. rewrite Hs, (skipped_repeat _ Hr).
  rewrite (try_except_repeat _ _ _ count Hr Hc).
  assert (H2 : (2 <=? List.length (payload (add_default_delay v)))%nat = true).
  { apply Nat.leb_le. rewrite add_default_delay_payload, length_app. lia. }
  rewrite H2. unfold set_payload. rewrite add_default_delay_default. reflexivity.
Qed.

Lemma loop_body_repeat_number line_num kw n v :
  kw = "REPEAT" \/ kw = "REPLAY" ->
  0 <= n -> (2 <= List.length (payload v))%nat ->
  loop_body line_num (kw ++ " " ++ Py.str n) v =
  (mkVars (payload (add_default_delay v) ++
           copies n (Py.last2 (payload (add_default_delay v))))
          (default_delay v), []).
Proof.
  intros Hkw Hn Hlen.
  assert (Hd : all_digits (Py.str n) = true) by apply string_of_uint_digits.
  assert (Hne : Py.str n <> "").
  { apply string_of_uint_nonempty.
    destruct (Z.to_N n); [discriminate|apply DecimalPos.Unsigned.to_uint_nonnil]. }
  destruct (repeat_line_count kw (Py.str n) Hkw Hd Hne) as (Hs & Hr & Hc).
  apply loop_body_repeat; auto. rewrite Hc. apply int_str, Hn.
Qed.

(** C4: on a payload that holds an instruction, [REPEAT n] and [REPLAY n]
    with [n >= 0] append [n] copies of the last two bytes the payload holds
    when the command runs, whatever these bytes are (a delay chunk as well;
    with a default delay set they are the chunk just put in front of the
    command), and the keyword alone appends one copy.  [STRING A] then
    [REPEAT 3] gives four times the bytes of [A]. *)
Theorem repeat_appends_copies (line_num : nat) (n : Z) (v : vars) :
  0 <= n ->
  (2 <= List.length (payload v))%nat ->
  let p := payload (add_default_delay v) in
  loop_body line_num ("REPEAT " ++ Py.str n) v =
    (mkVars (p ++ copies n (Py.last2 p)) (default_delay v), []) /\
  loop_body line_num ("REPLAY " ++ Py.str n) v =
    (mkVars (p ++ copies n (Py.last2 p)) (default_delay v), []) /\
  loop_body line_num "REPEAT" v = (mkVars (p ++ Py.last2 p) (default_delay v), []) /\
  loop_body line_num "REPLAY" v = (mkVars (p ++ Py.last2 p) (default_delay v), []) /\
  List.length (copies n (Py.last2 p)) = (2 * Z.to_nat n)%nat /\
  (if default_delay v >? 0 then p = payload v ++ encode_delay (default_delay v)
   else p = payload v) /\
  compile_script ["STRING A"; "REPEAT 3"] =
    (fst (encode_char "A") ++ copies 3 (fst (encode_char "A")), []) /\
  compile_script ["STRING a"; "DELAY 300"; "REPLAY 2"] =
    ([4; 0; 0; 255; 0; 45; 0; 45; 0; 45], []).
Proof.
  intros Hn Hlen p.
  assert (Hp : (2 <= List.length p)%nat).
  { unfold p. rewrite add_default_delay_payload, length_app. lia. }
  split; [|split; [|split; [|split; [|split; [|split; [|split]]]]]].
  - apply (loop_body_repeat_number line_num "REPEAT"); auto.
  - apply (loop_body_repeat_number line_num "REPLAY"); auto.
  - rewrite (loop_body_repeat line_num "REPEAT" v 1) by (assumption || reflexivity).
    unfold copies. simpl. rewrite app_nil_r. reflexivity.
  - rewrite (loop_body_repeat line_num "REPLAY" v 1) by (assumption || reflexivity).
    unfold copies. simpl. rewrite app_nil_r. reflexivity.
  - rewrite copies_length, last2_length by assumption. lia.
  - unfold p. rewrite add_default_delay_payload.
    destruct (default_delay v >? 0); cbn [andb].
    + destruct (payload v); [simpl in Hlen; lia|reflexivity].
    + apply app_nil_r.
  - reflexivity.
  - reflexivity.
Qed.

Lemma repeat_appends_copies_witness :
  loop_body 2 "REPEAT 3" (mkVars [4; 2] 0) = (mkVars [4; 2; 4; 2; 4; 2; 4; 2] 0, []) /\
  loop_body 3 "REPLAY 3" (mkVars [4; 2] 100) =
    (mkVars [4; 2; 0; 100; 0; 100; 0; 100; 0; 100] 100, []).
Proof.
  split.
  - apply (repeat_appends_copies 2 3 (mkVars [4; 2] 0)); [lia|simpl; lia].
  - apply (repeat_appends_copies 3 3 (mkVars [4; 2] 100)); [lia|simpl; lia].
Defined.

(** C10: a REPEAT or REPLAY line whose count is read without error, on a
    payload of fewer than two bytes, changes nothing and prints nothing. *)
Theorem repeat_without_instruction
  (line_num : nat) (line : string) (v : vars) (count : Z) :
  Nat.Even (List.length (payload v)) ->
  (List.length (payload v) < 2)%nat ->
  is_repeat (Py.strip line) = true ->
  (if (1 <? List.length (Py.split (Py.strip line)))%nat
   then int_arg (Py.strip line) else inr 1) = inr count ->
  loop_body line_num line v = (v, []).
Proof.
  intros [k Hk] Hlt Hr Hc.
  assert (Hnil : List.length (payload v) = 0%nat) by lia.
  unfold loop_body. rewrite (skipped_repeat _ Hr).
  assert (Hd : add_default_delay v = v).
  { unfold add_default_delay. rewrite Hnil, andb_false_r. reflexivity. }
  rewrite Hd, (try_except_repeat _ _ _ count Hr Hc), Hnil. reflexivity.
Qed.

Lemma repeat_without_instruction_witness :
  loop_body 1 " REPEAT 5 " (mkVars [] 100) = (mkVars [] 100, []) /\
  loop_body 1 "REPLAY" init = (init, []).
Proof.
  split.
  - apply (repeat_without_instruction 1 " REPEAT 5 " (mkVars [] 100) 5);
      [exists 0%nat; reflexivity | simpl; lia | reflexivity | reflexivity].
  - apply (repeat_without_instruction 1 "REPLAY" init 1);
      [exists 0%nat; reflexivity | simpl; lia | reflexivity | reflexivity].
Defined.

(** * Further properties *)

(** ** Shape of an encoded delay *)

Lemma copies_cons n (x : list Z) : 0 <= n -> copies (n + 1) x = x ++ copies n x.
Proof.
  intros H. unfold copies. rewrite Z2Nat.inj_add by lia.
  rewrite Nat.add_comm. reflexivity.
Qed.

Lemma encode_delay_nonpos ms : ms <= 0 -> encode_delay ms = [].
Proof.
  intros H. rewrite encode_delay_step.
  destruct (0 <? ms) eqn:E; [apply Z.ltb_lt in E; lia|reflexivity].
Qed.

Lemma encode_delay_full ms :
  255 <= ms -> encode_delay ms = [0; 255] ++ encode_delay (ms - 255).
Proof.
  intros H. rewrite encode_delay_step at 1.
  destruct (0 <? ms) eqn:E; [|apply Z.ltb_ge in E; lia].
  rewrite Z.min_r by lia. reflexivity.
Qed.

Lemma encode_delay_last ms :
  0 < ms < 255 -> encode_delay ms = [0; ms].
Proof.
  intros H. rewrite encode_delay_step.
  destruct (0 <? ms) eqn:E; [|apply Z.ltb_ge in E; lia].
  rewrite Z.min_l by lia. rewrite Z.sub_diag, (encode_delay_nonpos 0) by lia.
  reflexivity.
Qed.

(** X1: a non-negative delay is cut into [ms / 255] chunks of 255 followed,
    when 255 does not divide [ms], by one chunk of [ms mod 255]; the
    encoding takes two bytes per chunk. *)
Theorem encode_delay_closed_form (ms : Z) :
  0 <= ms ->
  encode_delay ms =
    copies (ms / 255) [0; 255] ++
    (if ms mod 255 =? 0 then [] else [0; ms mod 255]) /\
  List.length (encode_delay ms) = (2 * Z.to_nat ((ms + 254) / 255))%nat.
Proof.
  intros H.
  assert (E : encode_delay ms =
              copies (ms / 255) [0; 255] ++
              (if ms mod 255 =? 0 then [] else [0; ms mod 255])).
  { induction (Z.lt_wf 0 ms) as [ms _ IH].
    destruct (Z_lt_dec ms 255) as [Hlt|Hge].
    - rewrite Z.div_small, Z.mod_small by lia. cbn [copies].
      destruct (Z.eq_dec ms 0) as [->|Hnz]; [reflexivity|].
      rewrite encode_delay_last by lia.
      destruct (ms =? 0) eqn:Ez; [apply Z.eqb_eq in Ez; lia|reflexivity].
    - rewrite encode_delay_full, IH by lia.
      replace (ms / 255) with ((ms - 255) / 255 + 1)
        by (Z.div_mod_to_equations; lia).
      replace (ms mod 255) with ((ms - 255) mod 255)
        by (Z.div_mod_to_equations; lia).
      rewrite copies_cons by (apply Z.div_pos; lia).
      rewrite app_assoc. reflexivity. }
  split; [exact E|].
  rewrite E, length_app, copies_length. cbn [List.length].
  destruct (ms mod 255 =? 0) eqn:Ez.
  - apply Z.eqb_eq in Ez. cbn [List.length].
    replace ((ms + 254) / 255) with (ms / 255) by (Z.div_mod_to_equations; lia).
    lia.
  - apply Z.eqb_neq in Ez. cbn [List.length].
    replace ((ms + 254) / 255) with (ms / 255 + 1) by (Z.div_mod_to_equations; lia).
    rewrite Z2Nat.inj_add by (try apply Z.div_pos; lia). simpl Z.to_nat. lia.
Qed.

Lemma encode_delay_closed_form_witness :
  encode_delay 600 = [0; 255; 0; 255; 0; 90] /\
  List.length (encode_delay 600) = 6%nat.
Proof. apply (encode_delay_closed_form 600). lia. Defined.

Lemma encode_delay_instructions ms :
  Forall (fun i => fst i = 0 /\ 1 <= snd i <= 255) (instructions (encode_delay ms)) /\
  delay_total (encode_delay ms) = Z.max 0 ms.
Proof.
  induction (Z.lt_wf 0 ms) as [ms _ IH].
  rewrite encode_delay_step. destruct (0 <? ms) eqn:E.
  - apply Z.ltb_lt in E.
    destruct (IH (ms - Z.min ms 255) ltac:(lia)) as [Hall Htot].
    split.
    + cbn [instructions]. constructor; [simpl; lia|exact Hall].
    + unfold delay_total in *. cbn [instructions fold_right snd].
      rewrite Htot. lia.
  - apply Z.ltb_ge in E. split; [constructor|].
    unfold delay_total. simpl. lia.
Qed.

Lemma in_byte_range_true b : 0 <= b <= 255 -> in_byte_range b = true.
Proof.
  intros H. unfold in_byte_range.
  replace (0 <=? b) with true by (symmetry; apply Z.leb_le; lia).
  replace (b <? 256) with true by (symmetry; apply Z.ltb_lt; lia).
  reflexivity.
Qed.

Lemma encode_delay_in_range ms : forallb in_byte_range (encode_delay ms) = true.
Proof.
  induction (Z.lt_wf 0 ms) as [ms _ IH].
  rewrite encode_delay_step. destruct (0 <? ms) eqn:E; [|reflexivity].
  apply Z.ltb_lt in E. cbn [forallb].
  rewrite (IH (ms - Z.min ms 255)) by lia.
  rewrite (in_byte_range_true (Z.min ms 255)) by lia. reflexivity.
Qed.

(** X2: the instructions of an encoded delay all have first byte 0 and a
    second byte between 1 and 255, and their second bytes add up to the
    delay asked for (to 0 for a negative one): no time is lost or added by
    the chunking. *)
Theorem encode_delay_total :
  forall ms,
    Forall (fun i => fst i = 0 /\ 1 <= snd i <= 255) (instructions (encode_delay ms)) /\
    delay_total (encode_delay ms) = Z.max 0 ms /\
    forallb in_byte_range (encode_delay ms) = true.
Proof.
  intros ms. destruct (encode_delay_instructions ms) as [Hall Htot].
  split; [exact Hall|]. split; [exact Htot|]. apply encode_delay_in_range.
Qed.

(** ** Characters and strings *)

Lemma lookup_In (d : dict) k v : lookup d k = Some v -> In (k, v) d.
Proof.
  induction d as [|[k' v'] d IH]; simpl; [discriminate|].
  destruct (String.eqb k k') eqn:E.
  - apply String.eqb_eq in E. intros H. injection H as ->. subst. auto.
  - auto.
Qed.

Lemma lookup_range (d : dict) lo hi k v :
  forallb (fun kv => (lo <=? snd kv) && (snd kv <=? hi)) d = true ->
  lookup d k = Some v -> lo <= v <= hi.
Proof.
  intros Hall Hk. apply lookup_In in Hk.
  rewrite forallb_forall in Hall. specialize (Hall _ Hk). simpl in Hall.
  apply andb_prop in Hall. destruct Hall as [H1 H2].
  apply Z.leb_le in H1. apply Z.leb_le in H2. lia.
Qed.

Lemma KEYCODES_range k v : lookup KEYCODES k = Some v -> 0x04 <= v <= 0x38.
Proof. apply lookup_range. reflexivity. Qed.

Lemma SHIFT_CHARS_range k v : lookup SHIFT_CHARS k = Some v -> 0x04 <= v <= 0x38.
Proof. apply lookup_range. reflexivity. Qed.

Lemma SPECIAL_KEYS_range k v : lookup SPECIAL_KEYS k = Some v -> 0x28 <= v <= 0x65.
Proof. apply lookup_range. reflexivity. Qed.

Lemma tables_disjoint k v :
  lookup KEYCODES k = Some v -> lookup SHIFT_CHARS k = None.
Proof.
  intros H. apply lookup_In in H. unfold KEYCODES in H. simpl in H.
  repeat (destruct H as [H|H]; [injection H as <- <-; reflexivity|]).
  contradiction.
Qed.

Lemma encode_char_encodable char :
  encode_char char =
  if encodable char
  then (fst (encode_char char), [])
  else ([], [UnknownCharacter char]).
Proof.
  unfold encodable, has_key, encode_char. cbv zeta.
  destruct (lookup KEYCODES (String char "")); [reflexivity|].
  destruct (lookup SHIFT_CHARS (String char "")); reflexivity.
Qed.

(** X3: a character is sent either as its unshifted code with no
    modifier or as its shifted code with SHIFT, the code between 0x04 and
    0x38, so never as a pair that starts with 0 as a delay does; no
    character is in both tables; and a capital letter is sent as the code
    of its small letter with SHIFT. *)
Theorem encode_char_shape :
  (forall char,
     (exists code, 0x04 <= code <= 0x38 /\
        (encode_char char = ([code; MOD_NONE], []) \/
         encode_char char = ([code; MOD_SHIFT], []))) \/
     encode_char char = ([], [UnknownCharacter char])) /\
  (forall k, has_key KEYCODES k && has_key SHIFT_CHARS k = false) /\
  (forall char,
     if ((97 <=? N_of_ascii char) && (N_of_ascii char <=? 122))%N
     then exists code,
            encode_char char = ([code; MOD_NONE], []) /\
            encode_char (Py.upper_char char) = ([code; MOD_SHIFT], [])
     else True).
Proof.
  split; [|split].
  - intros char. unfold encode_char. cbv zeta.
    destruct (lookup KEYCODES (String char "")) as [code|] eqn:E1.
    + left. exists code. split; [eapply KEYCODES_range; eauto|auto].
    + destruct (lookup SHIFT_CHARS (String char "")) as [code|] eqn:E2.
      * left. exists code. split; [eapply SHIFT_CHARS_range; eauto|auto].
      * right. reflexivity.
  - intros k. unfold has_key.
    destruct (lookup KEYCODES k) as [v|] eqn:E; [|reflexivity].
    rewrite (tables_disjoint k v E). reflexivity.
  - intros char.
    destruct char as [[] [] [] [] [] [] [] []]; cbv beta iota;
      first [ exact I | eexists; split; reflexivity ].
Qed.

Lemma encode_string_loop_out text : forall result,
  snd (encode_string_loop text result) = snd (encode_string text).
Proof.
  unfold encode_string.
  induction text as [|char rest IH]; intros result; simpl; [reflexivity|].
  rewrite !snd_bind, IH, (IH (fst (encode_char char))). reflexivity.
Qed.

Lemma encode_string_out_cons char rest :
  snd (encode_string (String char rest)) =
  snd (encode_char char) ++ snd (encode_string rest).
Proof.
  unfold encode_string at 1. simpl. rewrite snd_bind.
  rewrite encode_string_loop_out. reflexivity.
Qed.

Lemma encode_string_app_fst s1 s2 :
  fst (encode_string (s1 ++ s2)) = fst (encode_string s1) ++ fst (encode_string s2).
Proof.
  induction s1 as [|c r IH]; [reflexivity|].
  cbn [String.append]. rewrite !encode_string_cons, IH, app_assoc. reflexivity.
Qed.

Lemma encode_string_app_snd s1 s2 :
  snd (encode_string (s1 ++ s2)) = snd (encode_string s1) ++ snd (encode_string s2).
Proof.
  induction s1 as [|c r IH]; [reflexivity|].
  cbn [String.append]. rewrite !encode_string_out_cons, IH, app_assoc. reflexivity.
Qed.

(** X4: encoding a text put together from two parts gives the bytes of the
    first part followed by the bytes of the second, and their warnings in
    the same order: no character depends on its neighbours. *)
Theorem encode_string_app (s1 s2 : string) :
  encode_string (s1 ++ s2) =
  (fst (encode_string s1) ++ fst (encode_string s2),
   snd (encode_string s1) ++ snd (encode_string s2)).
Proof.
  rewrite <- encode_string_app_fst, <- encode_string_app_snd.
  destruct (encode_string (s1 ++ s2)). reflexivity.
Qed.

Lemma encode_char_count char :
  List.length (fst (encode_char char)) = (if encodable char then 2 else 0)%nat /\
  snd (encode_char char) = if encodable char then [] else [UnknownCharacter char].
Proof.
  rewrite (encode_char_encodable char).
  destruct (encodable char) eqn:E; cbn [fst snd]; [|auto].
  split; [|reflexivity].
  destruct (encode_char_cases char) as [(c & m & ->)| H]; [reflexivity|].
  rewrite encode_char_encodable, E in H. discriminate H.
Qed.

(** X5: the payload of a text has two bytes for each character that has a
    code, and the warnings are the characters that have none, each once and
    in the order of the text; a text of [n] characters gives [b] bytes and
    [w] warnings with [b + 2 w = 2 n]. *)
Theorem encode_string_count (text : string) :
  let chars := list_ascii_of_string text in
  List.length (fst (encode_string text)) =
    (2 * List.length (filter encodable chars))%nat /\
  snd (encode_string text) =
    map UnknownCharacter (filter (fun c => negb (encodable c)) chars) /\
  (List.length (fst (encode_string text)) + 2 * List.length (snd (encode_string text))
   = 2 * String.length text)%nat.
Proof.
  cbv zeta. induction text as [|char rest (IH1 & IH2 & IH3)].
  - repeat split.
  - rewrite encode_string_cons, encode_string_out_cons, !length_app.
    destruct (encode_char_count char) as [Hl Hd]. rewrite Hl, Hd.
    cbn [list_ascii_of_string filter String.length].
    destruct (encodable char); cbn [negb map List.length app].
    + split; [lia|]. split; [exact IH2|]. lia.
    + split; [lia|]. split; [rewrite IH2; reflexivity|]. lia.
Qed.

(** ** Keys and modifier combinations *)

Lemma get_key_code_bound key_name code :
  get_key_code key_name = Some code -> 0x04 <= code <= 0x65.
Proof.
  unfold get_key_code.
  destruct (lookup SPECIAL_KEYS (Py.upper key_name)) as [c|] eqn:E1.
  { intros H. injection H as <-. apply SPECIAL_KEYS_range in E1. lia. }
  destruct (lookup KEYCODES (Py.lower key_name)) as [c|] eqn:E2.
  { intros H. injection H as <-. apply KEYCODES_range in E2. lia. }
  destruct (lookup SHIFT_CHARS key_name) as [c|] eqn:E3; [|discriminate].
  intros H. injection H as <-. apply SHIFT_CHARS_range in E3. lia.
Qed.

(** X6: a key name that resolves gives a usage code between 0x04 and 0x65,
    never 0; and every character that a STRING line can type resolves, as a
    key name, to the code the string encoder sends for it. *)
Theorem get_key_code_range :
  (forall key_name code,
     get_key_code key_name = Some code -> 0x04 <= code <= 0x65) /\
  (forall char,
     match fst (encode_char char) with
     | code :: _ => get_key_code (String char "") = Some code
     | [] => True
     end).
Proof.
  split; [exact get_key_code_bound|].
  intros char.
  destruct char as [[] [] [] [] [] [] [] []]; vm_compute; auto.
Qed.

Lemma get_key_code_range_witness :
  0x04 <= 0x4c <= 0x65 /\ get_key_code "?" = Some 0x38.
Proof.
  destruct get_key_code_range as [Hrange Hchar]. split.
  - apply (Hrange "Delete" 0x4c). reflexivity.
  - apply (Hchar "?"%char).
Defined.

Lemma combo_body_bit part m k :
  combo_body part (m, k) =
  match modifier_bit part with
  | Some b => ret (Z.lor m b, k)
  | None =>
      match get_key_code part with
      | None => (m, None, [UnknownKey part])
      | Some code => ret (m, Some code)
      end
  end.
Proof.
  unfold combo_body, modifier_bit. cbv zeta.
  destruct (Py.mem _ ["CTRL"; "CONTROL"]); [reflexivity|].
  destruct (Py.contains "SHIFT" _); [reflexivity|].
  destruct (Py.mem _ ["ALT"; "OPTION"]); [reflexivity|].
  destruct (Py.mem _ ["GUI"; "WINDOWS"; "COMMAND"; "CMD"; "META"]); [reflexivity|].
  destruct (get_key_code part); reflexivity.
Qed.

Lemma combo_body_modifier part m k :
  fst (fst (combo_body part (m, k))) = Z.lor m (bit_of part).
Proof.
  rewrite combo_body_bit. unfold bit_of.
  destruct (modifier_bit part); [reflexivity|].
  rewrite Z.lor_0_r. destruct (get_key_code part); reflexivity.
Qed.

Lemma combo_body_key part m k :
  snd (fst (combo_body part (m, k))) =
  if is_modifier part then k else get_key_code part.
Proof.
  rewrite combo_body_bit. unfold is_modifier.
  destruct (modifier_bit part); [reflexivity|].
  destruct (get_key_code part); reflexivity.
Qed.

Lemma combo_loop_modifier parts : forall m k,
  fst (fst (combo_loop parts (m, k))) = modifier_bits parts m.
Proof.
  induction parts as [|part rest IH]; intros m k; [reflexivity|].
  cbn [combo_loop modifier_bits fold_left]. rewrite fst_bind.
  destruct (fst (combo_body part (m, k))) as [m' k'] eqn:E.
  rewrite IH. f_equal.
  rewrite <- (combo_body_modifier part m k), E. reflexivity.
Qed.

Lemma combo_loop_modifiers_key parts : forall m k,
  forallb is_modifier parts = true ->
  snd (fst (combo_loop parts (m, k))) = k.
Proof.
  induction parts as [|part rest IH]; intros m k H; [reflexivity|].
  cbn [forallb] in H. apply andb_prop in H. destruct H as [Hp Hr].
  cbn [combo_loop]. rewrite fst_bind.
  pose proof (combo_body_key part m k) as Hb. rewrite Hp in Hb.
  destruct (fst (combo_body part (m, k))) as [m' k'].
  rewrite IH by assumption. exact Hb.
Qed.

Lemma combo_loop_key pre key post : forall m k,
  is_modifier key = false ->
  forallb is_modifier post = true ->
  snd (fst (combo_loop (pre ++ key :: post) (m, k))) = get_key_code key.
Proof.
  induction pre as [|part rest IH]; intros m k Hk Hpost.
  - cbn [List.app combo_loop]. rewrite fst_bind.
    pose proof (combo_body_key key m k) as Hb. rewrite Hk in Hb.
    destruct (fst (combo_body key (m, k))) as [m' k'].
    rewrite combo_loop_modifiers_key by assumption. exact Hb.
  - cbn [List.app combo_loop]. rewrite fst_bind.
    destruct (fst (combo_body part (m, k))) as [m' k'].
    apply IH; assumption.
Qed.

Lemma parse_modifier_combo_fst line :
  fst (parse_modifier_combo line) =
  let s := fst (combo_loop (Py.split line) (MOD_NONE, None)) in
  match snd s with
  | Some code => [code; fst s]
  | None => if negb (fst s =? MOD_NONE) then [0x00; fst s] else []
  end.
Proof.
  unfold parse_modifier_combo. rewrite fst_bind. cbv zeta.
  destruct (fst (combo_loop (Py.split line) (MOD_NONE, None))) as [m [c|]];
    cbn [fst snd]; [reflexivity|].
  destruct (negb (m =? MOD_NONE)); reflexivity.
Qed.

(** X7: the key of a combo line is its last token that is not a modifier,
    whether it resolves or not, and every modifier token counts, before or
    after the key: the line gives the key's code with the OR of all the
    modifier bits, or, when the key does not resolve, the modifier-only
    instruction (nothing when there is no modifier either).  A line of
    modifier tokens alone gives the modifier-only instruction. *)
Theorem combo_key_is_last (line : string) (pre post : list string) (key : string) :
  Py.split line = pre ++ key :: post ->
  is_modifier key = false ->
  forallb is_modifier post = true ->
  let m := modifier_bits (pre ++ post) MOD_NONE in
  fst (parse_modifier_combo line) =
    match get_key_code key with
    | Some code => [code; m]
    | None => if m =? 0 then [] else [0x00; m]
    end.
Proof.
  intros Hsplit Hkey Hpost m.
  rewrite parse_modifier_combo_fst. cbv zeta.
  pose proof (combo_loop_modifier (Py.split line) MOD_NONE None) as Hm.
  pose proof (combo_loop_key pre key post MOD_NONE None Hkey Hpost) as Hk.
  rewrite <- Hsplit in Hk.
  destruct (fst (combo_loop (Py.split line) (MOD_NONE, None))) as [m' k'].
  cbn [fst snd] in *. subst k'.
  assert (Em : m' = m).
  { rewrite Hm, Hsplit. unfold m, modifier_bits.
    rewrite !fold_left_app. cbn [fold_left].
    assert (Hb : bit_of key = 0).
    { unfold bit_of. unfold is_modifier in Hkey.
      destruct (modifier_bit key); [discriminate|reflexivity]. }
    rewrite Hb, Z.lor_0_r. reflexivity. }
  rewrite Em. destruct (get_key_code key); [reflexivity|].
  unfold MOD_NONE. destruct (m =? 0); reflexivity.
Qed.

Lemma combo_key_is_last_witness :
  fst (parse_modifier_combo "x CTRL Delete ALT") = [0x4c; 0x05] /\
  fst (parse_modifier_combo "CTRL a nokey SHIFT") = [0x00; 0x03].
Proof.
  split.
  - apply (combo_key_is_last "x CTRL Delete ALT" ["x"; "CTRL"] ["ALT"] "Delete");
      reflexivity.
  - apply (combo_key_is_last "CTRL a nokey SHIFT" ["CTRL"; "a"] ["SHIFT"] "nokey");
      reflexivity.
Defined.

Lemma bit_of_cases part :
  bit_of part = 0 \/ bit_of part = 1 \/ bit_of part = 2 \/
  bit_of part = 4 \/ bit_of part = 8.
Proof.
  unfold bit_of, modifier_bit. cbv zeta.
  destruct (Py.mem _ ["CTRL"; "CONTROL"]); [auto 10|].
  destruct (Py.contains "SHIFT" _); [auto 10|].
  destruct (Py.mem _ ["ALT"; "OPTION"]); [auto 10|].
  destruct (Py.mem _ ["GUI"; "WINDOWS"; "COMMAND"; "CMD"; "META"]); auto 10.
Qed.

Lemma bit_of_modifier part : is_modifier part = true -> 1 <= bit_of part.
Proof.
  unfold is_modifier, bit_of, modifier_bit. cbv zeta.
  destruct (Py.mem _ ["CTRL"; "CONTROL"]); [intros _; unfold MOD_CTRL, MOD_SHIFT, MOD_ALT, MOD_GUI; lia|].
  destruct (Py.contains "SHIFT" _); [intros _; unfold MOD_CTRL, MOD_SHIFT, MOD_ALT, MOD_GUI; lia|].
  destruct (Py.mem _ ["ALT"; "OPTION"]); [intros _; unfold MOD_CTRL, MOD_SHIFT, MOD_ALT, MOD_GUI; lia|].
  destruct (Py.mem _ ["GUI"; "WINDOWS"; "COMMAND"; "CMD"; "META"]); [intros _; unfold MOD_CTRL, MOD_SHIFT, MOD_ALT, MOD_GUI; lia|].
  discriminate.
Qed.

Lemma lor_nibble m b :
  0 <= m <= 15 ->
  b = 0 \/ b = 1 \/ b = 2 \/ b = 4 \/ b = 8 ->
  m <= Z.lor m b <= 15 /\ b <= Z.lor m b.
Proof.
  intros Hm Hb.
  assert (Hcases : m = 0 \/ m = 1 \/ m = 2 \/ m = 3 \/ m = 4 \/ m = 5 \/ m = 6 \/
                   m = 7 \/ m = 8 \/ m = 9 \/ m = 10 \/ m = 11 \/ m = 12 \/
                   m = 13 \/ m = 14 \/ m = 15) by lia.
  repeat (destruct Hcases as [->|Hcases]);
    try subst m;
    repeat (destruct Hb as [->|Hb]); try subst b; cbn; lia.
Qed.

Lemma modifier_bits_bound parts : forall m,
  0 <= m <= 15 -> m <= modifier_bits parts m <= 15.
Proof.
  induction parts as [|part rest IH]; intros m Hm; cbn [modifier_bits fold_left];
    [lia|].
  destruct (lor_nibble m (bit_of part) Hm (bit_of_cases part)) as [H1 H2].
  specialize (IH (Z.lor m (bit_of part)) ltac:(lia)).
  unfold modifier_bits in IH. lia.
Qed.

Lemma modifier_bits_positive parts : forall m,
  0 <= m <= 15 -> parts <> [] -> forallb is_modifier parts = true ->
  1 <= modifier_bits parts m.
Proof.
  destruct parts as [|part rest]; intros m Hm Hne Hall; [congruence|].
  cbn [forallb] in Hall. apply andb_prop in Hall. destruct Hall as [Hp _].
  cbn [modifier_bits fold_left].
  destruct (lor_nibble m (bit_of part) Hm (bit_of_cases part)) as [H1 H2].
  pose proof (bit_of_modifier part Hp).
  pose proof (modifier_bits_bound rest (Z.lor m (bit_of part)) ltac:(lia)) as Hb.
  unfold modifier_bits in Hb. lia.
Qed.

Lemma combo_loop_key_range parts : forall m k code,
  (forall c, k = Some c -> 0x04 <= c <= 0x65) ->
  snd (fst (combo_loop parts (m, k))) = Some code -> 0x04 <= code <= 0x65.
Proof.
  induction parts as [|part rest IH]; intros m k code Hk H.
  - apply Hk, H.
  - cbn [combo_loop] in H. rewrite fst_bind in H.
    pose proof (combo_body_key part m k) as Hb.
    destruct (fst (combo_body part (m, k))) as [m' k']. cbn [snd] in Hb.
    apply (IH m' k' code); [|exact H].
    intros c Hc. subst k'. destruct (is_modifier part); [apply Hk; auto|].
    apply (get_key_code_bound part c). auto.
Qed.

Lemma parse_modifier_combo_cases line :
  fst (parse_modifier_combo line) = [] \/
  exists code m,
    fst (parse_modifier_combo line) = [code; m] /\
    0 <= m <= 15 /\
    (0x04 <= code <= 0x65 \/ code = 0 /\ 1 <= m).
Proof.
  rewrite parse_modifier_combo_fst. cbv zeta.
  pose proof (combo_loop_modifier (Py.split line) MOD_NONE None) as Hm.
  pose proof (combo_loop_key_range (Py.split line) MOD_NONE None) as Hk.
  pose proof (modifier_bits_bound (Py.split line) MOD_NONE ltac:(unfold MOD_NONE; lia))
    as Hb.
  destruct (fst (combo_loop (Py.split line) (MOD_NONE, None))) as [m k].
  cbn [fst snd] in *. subst m. unfold MOD_NONE in *.
  destruct k as [code|].
  - right. exists code, (modifier_bits (Py.split line) 0).
    split; [reflexivity|]. split; [lia|]. left.
    apply (Hk code); [discriminate|reflexivity].
  - destruct (modifier_bits (Py.split line) 0 =? 0) eqn:E; cbn [negb].
    + left. reflexivity.
    + right. apply Z.eqb_neq in E.
      exists 0, (modifier_bits (Py.split line) 0).
      split; [reflexivity|]. split; [lia|]. right. lia.
Qed.

Lemma parse_modifier_combo_in_range line :
  forallb in_byte_range (fst (parse_modifier_combo line)) = true.
Proof.
  destruct (parse_modifier_combo_cases line) as [-> | (code & m & -> & Hm & Hc)];
    [reflexivity|].
  cbn [forallb]. rewrite (in_byte_range_true code), (in_byte_range_true m) by lia.
  reflexivity.
Qed.

(** X8: what a combo line gives is nothing, or one instruction whose
    modifier byte is a mask between 0 and 15 and whose first byte is either
    the usage code of a key, between 0x04 and 0x65, or 0 with a mask that is
    not 0; both bytes pass the range test of the output.  A line of modifier
    tokens alone gives the modifier-only instruction, with the OR of their
    bits. *)
Theorem parse_modifier_combo_shape :
  (forall line,
     fst (parse_modifier_combo line) = [] \/
     exists code m,
       fst (parse_modifier_combo line) = [code; m] /\
       0 <= m <= 15 /\
       (0x04 <= code <= 0x65 \/ code = 0 /\ 1 <= m)) /\
  (forall line, forallb in_byte_range (fst (parse_modifier_combo line)) = true) /\
  (forall line,
     Py.split line <> [] ->
     forallb is_modifier (Py.split line) = true ->
     fst (parse_modifier_combo line) = [0x00; modifier_bits (Py.split line) 0] /\
     1 <= modifier_bits (Py.split line) 0 <= 15).
Proof.
  split; [exact parse_modifier_combo_cases|].
  split; [exact parse_modifier_combo_in_range|].
  intros line Hne Hall.
  pose proof (modifier_bits_positive (Py.split line) 0 ltac:(lia) Hne Hall) as Hpos.
  pose proof (modifier_bits_bound (Py.split line) 0 ltac:(lia)) as Hb.
  split; [|lia].
  rewrite parse_modifier_combo_fst. cbv zeta.
  pose proof (combo_loop_modifier (Py.split line) MOD_NONE None) as Hm.
  pose proof (combo_loop_modifiers_key (Py.split line) MOD_NONE None Hall) as Hk.
  destruct (fst (combo_loop (Py.split line) (MOD_NONE, None))) as [m k].
  cbn [fst snd] in *. subst m k. unfold MOD_NONE.
  destruct (modifier_bits (Py.split line) 0 =? 0) eqn:E; [|reflexivity].
  apply Z.eqb_eq in E. lia.
Qed.

Lemma parse_modifier_combo_shape_witness :
  fst (parse_modifier_combo "gui  Alt control") = [0x00; 0x0d].
Proof.
  destruct parse_modifier_combo_shape as (_ & _ & Hmods).
  apply (Hmods "gui  Alt control"); [discriminate|reflexivity].
Defined.

(** ** The payload across lines *)

Lemma forallb_skipn {A} (f : A -> bool) (l : list A) : forall k,
  forallb f l = true -> forallb f (skipn k l) = true.
Proof.
  induction l as [|a l IH]; intros [|k] H; auto.
  cbn [skipn]. cbn [forallb] in H. apply andb_prop in H. apply IH. tauto.
Qed.

Lemma copies_in_range n x :
  forallb in_byte_range x = true -> forallb in_byte_range (copies n x) = true.
Proof.
  intros H. unfold copies. induction (Z.to_nat n) as [|k IH]; [reflexivity|].
  rewrite copies_succ, forallb_app, H, IH. reflexivity.
Qed.

Lemma encode_char_in_range char :
  forallb in_byte_range (fst (encode_char char)) = true.
Proof.
  unfold encode_char. cbv zeta.
  destruct (lookup KEYCODES (String char "")) as [code|] eqn:E1.
  { apply KEYCODES_range in E1. cbn [fst ret forallb].
    rewrite (in_byte_range_true code) by lia. reflexivity. }
  destruct (lookup SHIFT_CHARS (String char "")) as [code|] eqn:E2; [|reflexivity].
  apply SHIFT_CHARS_range in E2. cbn [fst ret forallb].
  rewrite (in_byte_range_true code) by lia. reflexivity.
Qed.

Lemma encode_string_in_range text :
  forallb in_byte_range (fst (encode_string text)) = true.
Proof.
  induction text as [|char rest IH]; [reflexivity|].
  rewrite encode_string_cons, forallb_app, encode_char_in_range, IH. reflexivity.
Qed.

Ltac effect_of ext :=
  exists ext;
  rewrite ?fst_bind;
  cbn [fst snd ret payload set_payload set_default_delay default_delay];
  rewrite ?app_nil_r, ?app_assoc, ?repeat_extend_copies;
  split; [reflexivity|split; [intros ?|reflexivity]].

(** What the [try] block does to the variables, whatever way it ends. *)
Lemma try_block_effect line_num line v :
  exists ext,
    payload (fst (fst (try_block line_num line v))) = payload v ++ ext /\
    (forallb in_byte_range (payload v) = true -> forallb in_byte_range ext = true) /\
    (if is_default_delay line then ext = []
     else default_delay (fst (fst (try_block line_num line v))) = default_delay v).
Proof.
  unfold try_block, is_default_delay.
  destruct (_ || _).
  { destruct (int_arg line); effect_of (@nil Z); reflexivity. }
  destruct (Py.startswith line "DELAY").
  { destruct (int_arg line) as [e|n].
    - effect_of (@nil Z). reflexivity.
    - effect_of (encode_delay n). apply encode_delay_in_range. }
  destruct (Py.startswith line "STRING ").
  { effect_of (fst (encode_string (Py.drop 7 line))). apply encode_string_in_range. }
  destruct (Py.startswith line "STRINGLN ").
  { effect_of (fst (encode_string (Py.drop 9 line)) ++ [0x28; MOD_NONE]).
    rewrite forallb_app, encode_string_in_range. reflexivity. }
  destruct (lookup SPECIAL_KEYS line) as [code|] eqn:E.
  { effect_of [code; MOD_NONE]. apply SPECIAL_KEYS_range in E.
    cbn [forallb]. rewrite (in_byte_range_true code) by lia. reflexivity. }
  destruct (existsb _ MODIFIER_PREFIXES).
  { pose proof (parse_modifier_combo_in_range line) as Hr.
    rewrite fst_bind.
    destruct (fst (parse_modifier_combo line)) as [|a r].
    - effect_of (@nil Z). reflexivity.
    - effect_of (a :: r). exact Hr. }
  destruct (_ || _).
  { destruct (if (1 <? _)%nat then _ else _) as [e|count].
    - effect_of (@nil Z). reflexivity.
    - destruct (2 <=? List.length (payload v))%nat.
      + effect_of (copies count (Py.last2 (payload v))).
        apply copies_in_range. unfold Py.last2. apply forallb_skipn. assumption.
      + effect_of (@nil Z). reflexivity. }
  effect_of (@nil Z). reflexivity.
Qed.

Lemma try_except_fst line_num line v :
  fst (try_except line_num line v) = fst (fst (try_block line_num line v)).
Proof.
  unfold try_except. rewrite fst_bind.
  destruct (fst (try_block line_num line v)) as [v' [|e]]; reflexivity.
Qed.

(** What one line does to the variables. *)
Lemma loop_body_effect line_num line v :
  exists ext,
    payload (fst (loop_body line_num line v)) = payload v ++ ext /\
    (forallb in_byte_range (payload v) = true -> forallb in_byte_range ext = true) /\
    (is_default_delay (Py.strip line) = false ->
     default_delay (fst (loop_body line_num line v)) = default_delay v).
Proof.
  unfold loop_body. destruct (skipped (Py.strip line)).
  { exists []. cbn. rewrite app_nil_r. auto. }
  rewrite try_except_fst.
  destruct (try_block_effect line_num (Py.strip line) (add_default_delay v))
    as (ext & Hp & Hr & Hd).
  rewrite add_default_delay_payload in Hp.
  exists ((if (default_delay v >? 0) && negb (Nat.eqb (List.length (payload v)) 0)
           then encode_delay (default_delay v) else []) ++ ext).
  split; [rewrite Hp, app_assoc; reflexivity|]. split.
  - intros H. rewrite forallb_app. apply andb_true_intro. split.
    + destruct (_ && _); [apply encode_delay_in_range|reflexivity].
    + apply Hr. rewrite add_default_delay_payload, forallb_app, H.
      destruct (_ && _); [apply encode_delay_in_range|reflexivity].
  - intros Hdd. rewrite Hdd in Hd. rewrite Hd. apply add_default_delay_default.
Qed.

Lemma compile_loop_effect lines : forall line_num v,
  exists ext,
    payload (fst (compile_loop line_num lines v)) = payload v ++ ext /\
    (forallb in_byte_range (payload v) = true -> forallb in_byte_range ext = true) /\
    (forallb (fun line => negb (is_default_delay (Py.strip line))) lines = true ->
     default_delay (fst (compile_loop line_num lines v)) = default_delay v).
Proof.
  induction lines as [|line rest IH]; intros line_num v.
  { exists []. cbn. rewrite app_nil_r. auto. }
  cbn [compile_loop]. rewrite fst_bind.
  destruct (loop_body_effect line_num line v) as (e1 & Hp1 & Hr1 & Hd1).
  destruct (IH (S line_num) (fst (loop_body line_num line v))) as (e2 & Hp2 & Hr2 & Hd2).
  exists (e1 ++ e2). split; [rewrite Hp2, Hp1, app_assoc; reflexivity|]. split.
  - intros H. rewrite forallb_app, (Hr1 H). apply Hr2.
    rewrite Hp1, forallb_app, H, (Hr1 H). reflexivity.
  - cbn [forallb]. intros H. apply andb_prop in H. destruct H as [Hl Hrest].
    rewrite (Hd2 Hrest). apply Hd1. destruct (is_default_delay _); [discriminate|reflexivity].
Qed.

Lemma compile_loop_app l1 : forall l2 line_num v,
  compile_loop line_num (l1 ++ l2) v =
  (v1 <- compile_loop line_num l1 v ;;
   compile_loop (line_num + List.length l1) l2 v1).
Proof.
  induction l1 as [|line rest IH]; intros l2 line_num v.
  - cbn [List.app compile_loop List.length]. rewrite bind_ret_l, Nat.add_0_r. reflexivity.
  - cbn [List.app compile_loop List.length]. unfold bind at 1 3.
    destruct (loop_body line_num line v) as [v' o].
    rewrite IH. unfold bind.
    replace (S line_num + List.length rest)%nat with (line_num + S (List.length rest))%nat
      by lia.
    destruct (compile_loop (S line_num) rest v') as [v1 o1].
    destruct (compile_loop _ l2 v1) as [v2 o2].
    rewrite app_assoc. reflexivity.
Qed.

(** X9: the payload only grows: after any lines it is the payload before
    followed by what they added, and the bytes written for a script are the
    bytes written for any of its prefixes followed by more.  Every byte
    written passes the range test of [bytes(payload)], so the output is
    always produced. *)
Theorem payload_append_only :
  (forall line_num lines v,
     exists ext, payload (fst (compile_loop line_num lines v)) = payload v ++ ext) /\
  (forall l1 l2,
     exists ext, fst (compile_script (l1 ++ l2)) = fst (compile_script l1) ++ ext) /\
  (forall lines, forallb in_byte_range (fst (compile_script lines)) = true).
Proof.
  split; [|split].
  - intros line_num lines v.
    destruct (compile_loop_effect lines line_num v) as (ext & H & _). eauto.
  - intros l1 l2. unfold compile_script. rewrite !fst_bind. cbn [ret fst].
    rewrite compile_loop_app, fst_bind.
    destruct (compile_loop_effect l2 (1 + List.length l1)
                (fst (compile_loop 1 l1 init))) as (ext & H & _).
    eauto.
  - intros lines. unfold compile_script. rewrite fst_bind. cbn [ret fst].
    destruct (compile_loop_effect lines 1 init) as (ext & Hp & Hr & _).
    rewrite Hp. cbn [payload init List.app]. apply Hr. reflexivity.
Qed.

(** X10: the default delay is changed by DEFAULT_DELAY and DEFAULTDELAY
    lines only: a script without such a line ends with the default delay it
    started with, whatever errors its lines raise; and a DEFAULT_DELAY line
    adds no byte of its own, only the delay in force before it. *)
Theorem default_delay_set_by_directive_only :
  (forall line_num lines v,
     forallb (fun line => negb (is_default_delay (Py.strip line))) lines = true ->
     default_delay (fst (compile_loop line_num lines v)) = default_delay v) /\
  (forall line_num line v,
     is_default_delay (Py.strip line) = true ->
     payload (fst (loop_body line_num line v)) = payload (add_default_delay v)).
Proof.
  split.
  - intros line_num lines v H.
    destruct (compile_loop_effect lines line_num v) as (ext & _ & _ & Hd). auto.
  - intros line_num line v H. unfold loop_body.
    assert (Hs : skipped (Py.strip line) = false).
    { unfold is_default_delay in H. apply orb_prop in H.
      destruct H as [H|H]; apply startswith_inv in H; destruct H as [rest ->];
        reflexivity. }
    rewrite Hs, try_except_fst.
    destruct (try_block_effect line_num (Py.strip line) (add_default_delay v))
      as (ext & Hp & _ & Hd).
    rewrite H in Hd. rewrite Hp, Hd. apply app_nil_r.
Qed.

Lemma default_delay_set_by_directive_only_witness :
  default_delay (fst (compile_loop 1 ["DELAY x"; "STRING a"; "FOO"] (mkVars [] 7))) = 7 /\
  payload (fst (loop_body 3 "DEFAULT_DELAY 20" (mkVars [4; 0] 10))) = [4; 0; 0; 10].
Proof.
  destruct default_delay_set_by_directive_only as [Hkeep Hdir]. split.
  - apply (Hkeep 1%nat ["DELAY x"; "STRING a"; "FOO"] (mkVars [] 7)). reflexivity.
  - apply (Hdir 3%nat "DEFAULT_DELAY 20" (mkVars [4; 0] 10)). reflexivity.
Defined.

(** ** Comments, blank lines and line numbers *)

Lemma try_block_line_num n m line v :
  fst (try_block n line v) = fst (try_block m line v).
Proof.
  unfold try_block.
  repeat match goal with
         | |- context [if ?b then _ else _] => destruct b
         | |- context [match ?x with inl _ => _ | inr _ => _ end] => destruct x
         | |- context [match lookup ?d ?k with _ => _ end] => destruct (lookup d k)
         end; reflexivity.
Qed.

Lemma loop_body_line_num n m line v :
  fst (loop_body n line v) = fst (loop_body m line v).
Proof.
  unfold loop_body. destruct (skipped _); [reflexivity|].
  rewrite !try_except_fst, (try_block_line_num n m). reflexivity.
Qed.

Lemma compile_loop_line_num lines : forall n m v,
  fst (compile_loop n lines v) = fst (compile_loop m lines v).
Proof.
  induction lines as [|line rest IH]; intros n m v; [reflexivity|].
  cbn [compile_loop]. rewrite !fst_bind, (loop_body_line_num n m).
  apply IH.
Qed.

Lemma lstrip_blank line :
  forallb Py.isspace (list_ascii_of_string line) = true -> Py.lstrip line = "".
Proof.
  induction line as [|c r IH]; [reflexivity|].
  cbn [list_ascii_of_string forallb Py.lstrip]. intros H.
  apply andb_prop in H. destruct H as [Hc Hr]. rewrite Hc. auto.
Qed.

(** X11: a blank line (whitespace only) and a comment line (REM or //
    first, after leading whitespace) leave the variables as they are and
    print nothing, and the line numbers go into the diagnostics only: taking
    a blank or comment line out of a script, or putting one in, does not
    change the bytes written. *)
Theorem comments_do_not_matter :
  (forall line_num line v,
     forallb Py.isspace (list_ascii_of_string line) = true ->
     loop_body line_num line v = (v, [])) /\
  (forall line_num line v,
     Py.startswith (Py.strip line) "REM" = true \/
     Py.startswith (Py.strip line) "//" = true ->
     loop_body line_num line v = (v, [])) /\
  (forall n m lines v,
     fst (compile_loop n lines v) = fst (compile_loop m lines v)) /\
  (forall pre c post,
     skipped (Py.strip c) = true ->
     fst (compile_script (pre ++ c :: post)) = fst (compile_script (pre ++ post))).
Proof.
  split; [|split; [|split]].
  - intros line_num line v H. unfold loop_body, Py.strip.
    rewrite (lstrip_blank line H). reflexivity.
  - intros line_num line v H. unfold loop_body, skipped.
    destruct H as [H|H]; rewrite H, ?orb_true_r; reflexivity.
  - intros n m lines v. apply compile_loop_line_num.
  - intros pre c post H. unfold compile_script. rewrite !fst_bind. cbn [ret fst].
    rewrite !compile_loop_app, !fst_bind. cbn [compile_loop]. rewrite fst_bind.
    unfold loop_body at 1. rewrite H. cbn [ret fst].
    f_equal. apply compile_loop_line_num.
Qed.

Lemma comments_do_not_matter_witness :
  loop_body 4 "   REMOVE all of this" (mkVars [4; 0] 50) = (mkVars [4; 0] 50, []) /\
  fst (compile_script ["STRING a"; "  // note"; "ENTER"]) =
  fst (compile_script ["STRING a"; "ENTER"]).
Proof.
  destruct comments_do_not_matter as (_ & Hrem & _ & Hscript). split.
  - apply (Hrem 4%nat "   REMOVE all of this" (mkVars [4; 0] 50)). left. reflexivity.
  - apply (Hscript ["STRING a"] "  // note" ["ENTER"]). reflexivity.
Defined.

(** ** Key lines and STRINGLN *)

Lemma add_default_delay_off v : default_delay v <= 0 -> add_default_delay v = v.
Proof.
  intros H. unfold add_default_delay.
  replace (default_delay v >? 0) with false; [reflexivity|].
  symmetry. rewrite Z.gtb_ltb. apply Z.ltb_ge. exact H.
Qed.

Lemma loop_body_special_key name code line_num line v :
  In (name, code) SPECIAL_KEYS ->
  Py.strip line = name ->
  loop_body line_num line v =
  (set_payload (add_default_delay v)
     (payload (add_default_delay v) ++ [code; MOD_NONE]), []).
Proof.
  intros Hin Hs. unfold loop_body. rewrite Hs. clear Hs.
  unfold SPECIAL_KEYS in Hin. simpl in Hin.
  repeat (destruct Hin as [Hin|Hin]; [injection Hin as <- <-; reflexivity|]).
  contradiction.
Qed.

Lemma loop_body_special_key_lower name code line_num v :
  In (name, code) SPECIAL_KEYS ->
  loop_body line_num (Py.lower name) v =
  (add_default_delay v, [UnknownCommand line_num (Py.lower name)]).
Proof.
  intros Hin. unfold SPECIAL_KEYS in Hin. simpl in Hin.
  repeat (destruct Hin as [Hin|Hin]; [injection Hin as <- <-; reflexivity|]).
  contradiction.
Qed.

(** X12: a line that is, once trimmed, the name of a special key exactly as
    the table spells it (capitals) appends that key's code with no modifier,
    after the default delay, and prints nothing; the same name in small
    letters is not a command: it is reported as unknown and adds no key. *)
Theorem special_key_line (name : string) (code : Z) (line_num : nat) (line : string) (v : vars) :
  In (name, code) SPECIAL_KEYS ->
  Py.strip line = name ->
  loop_body line_num line v =
    (set_payload (add_default_delay v)
       (payload (add_default_delay v) ++ [code; MOD_NONE]), []) /\
  loop_body line_num (Py.lower name) v =
    (add_default_delay v, [UnknownCommand line_num (Py.lower name)]).
Proof.
  intros Hin Hs. split.
  - apply (loop_body_special_key name); assumption.
  - apply (loop_body_special_key_lower name code); assumption.
Qed.

Lemma special_key_line_witness :
  loop_body 2 " PAGEDOWN " (mkVars [4; 0] 30) = (mkVars [4; 0; 0; 30; 0x4e; 0] 30, []) /\
  loop_body 2 "pagedown" (mkVars [4; 0] 30) =
    (mkVars [4; 0; 0; 30] 30, [UnknownCommand 2 "pagedown"]).
Proof.
  apply (special_key_line "PAGEDOWN" 0x4e 2 " PAGEDOWN " (mkVars [4; 0] 30));
    [unfold SPECIAL_KEYS; simpl; tauto|reflexivity].
Defined.

Lemma try_except_STRINGLN line_num text v :
  try_except line_num ("STRINGLN " ++ text) v =
  (set_payload v ((payload v ++ fst (encode_string text)) ++ [0x28; MOD_NONE]),
   snd (encode_string text)).
Proof.
  unfold try_except, try_block.
  cbn [Py.startswith String.append Ascii.eqb Bool.eqb andb orb Py.drop].
  rewrite startswith_empty.
  rewrite (bind_encode_string text _
             (fun r => set_payload v ((payload v ++ r) ++ [0x28; MOD_NONE])))
    by reflexivity.
  unfold bind, ret. rewrite app_nil_r. reflexivity.
Qed.

Lemma loop_body_STRINGLN line_num line text v :
  Py.strip line = ("STRINGLN " ++ text)%string ->
  loop_body line_num line v =
    (set_payload (add_default_delay v)
       ((payload (add_default_delay v) ++ fst (encode_string text)) ++ [0x28; MOD_NONE]),
     snd (encode_string text)).
Proof.
  intros H. unfold loop_body. rewrite H.
  change (skipped ("STRINGLN " ++ text)) with false. cbv iota.
  apply try_except_STRINGLN.
Qed.

(** X13: a STRINGLN line appends the default delay, the bytes of its text
    and the ENTER instruction [0x28, 0x00], with no delay between the text
    and ENTER; when no default delay is set it does what the STRING line of
    the same text followed by an ENTER line does. *)
Theorem stringln_is_string_then_enter
  (line_num : nat) (l1 l2 : string) (text : string) (v : vars) :
  Py.strip l1 = ("STRINGLN " ++ text)%string ->
  Py.strip l2 = ("STRING " ++ text)%string ->
  payload (fst (loop_body line_num l1 v)) =
    payload (add_default_delay v) ++ fst (encode_string text) ++ [0x28; 0x00] /\
  (default_delay v <= 0 ->
   loop_body line_num l1 v =
   (x <- loop_body line_num l2 v ;; loop_body (S line_num) "ENTER" x)).
Proof.
  intros H1 H2. rewrite (loop_body_STRINGLN _ _ _ _ H1). split.
  - cbn [fst payload set_payload]. rewrite <- app_assoc. reflexivity.
  - intros Hd. rewrite (loop_body_STRING _ _ _ _ H2).
    unfold bind.
    rewrite (loop_body_special_key "ENTER" 0x28 (S line_num) "ENTER")
      by (reflexivity || (unfold SPECIAL_KEYS; simpl; tauto)).
    rewrite (add_default_delay_off (set_payload _ _))
      by (cbn [default_delay set_payload]; rewrite add_default_delay_default; exact Hd).
    rewrite app_nil_r. reflexivity.
Qed.

Lemma stringln_is_string_then_enter_witness :
  payload (fst (loop_body 1 "STRINGLN ok" (mkVars [4; 0] 9))) =
    [4; 0; 0; 9; 0x12; 0; 0x0e; 0; 0x28; 0] /\
  loop_body 1 "STRINGLN ok" init =
    (x <- loop_body 1 "STRING ok" init ;; loop_body 2 "ENTER" x).
Proof.
  split.
  - apply (stringln_is_string_then_enter 1 "STRINGLN ok" "STRING ok" "ok" (mkVars [4; 0] 9));
      reflexivity.
  - apply (stringln_is_string_then_enter 1 "STRINGLN ok" "STRING ok" "ok" init);
      [reflexivity|reflexivity|simpl; lia].
Defined.

(** ** Lines with a number *)

Lemma no_space_digits s : all_digits s = true -> no_space s = true.
Proof.
  induction s as [|c r IH]; [reflexivity|]. simpl. intros H.
  apply andb_prop in H. destruct H as [Hc Hr].
  rewrite (digit_not_space c Hc), IH by assumption. reflexivity.
Qed.

Lemma rstrip_no_space s : no_space s = true -> Py.rstrip s = s.
Proof.
  induction s as [|c r IH]; [reflexivity|]. simpl. intros H.
  apply andb_prop in H. destruct H as [Hc Hr].
  apply negb_true_iff in Hc. rewrite Hc, IH by assumption. reflexivity.
Qed.

Lemma split_no_space s : no_space s = true -> s <> "" -> Py.split s = [s].
Proof.
  induction s as [|c r IH]; [congruence|]. intros H _.
  simpl in H. apply andb_prop in H. destruct H as [Hc Hr].
  apply negb_true_iff in Hc. cbn [Py.split]. rewrite Hc.
  destruct r as [|c' r']; [reflexivity|].
  rewrite IH by (assumption || discriminate).
  simpl in Hr. apply andb_prop in Hr. destruct Hr as [Hc' _].
  apply negb_true_iff in Hc'. rewrite Hc'. reflexivity.
Qed.

Lemma rstrip_prefix p w :
  Py.rstrip w = w -> w <> "" -> Py.rstrip (p ++ w) = (p ++ w)%string.
Proof.
  intros Hw Hne. induction p as [|c p IH]; [exact Hw|].
  cbn [String.append]. apply rstrip_cons; [exact IH|].
  destruct p; [exact Hne|discriminate].
Qed.

Lemma str_nonempty n : Py.str n <> "".
Proof.
  apply string_of_uint_nonempty.
  destruct (Z.to_N n); [discriminate|apply DecimalPos.Unsigned.to_uint_nonnil].
Qed.

Lemma str_int_word n : no_space (str_int n) = true /\ str_int n <> "".
Proof.
  unfold str_int. destruct (n <? 0).
  - split; [|discriminate]. cbn [no_space].
    rewrite no_space_digits by apply string_of_uint_digits. reflexivity.
  - split; [apply no_space_digits, string_of_uint_digits|apply str_nonempty].
Qed.

Lemma int_str_int n : Py.int (str_int n) = inr n.
Proof.
  unfold str_int. destruct (n <? 0) eqn:E.
  - apply Z.ltb_lt in E.
    assert (Hd : all_digits (Py.str (- n)) = true) by apply string_of_uint_digits.
    assert (Hs : Py.strip (String "-" (Py.str (- n))) = String "-" (Py.str (- n))).
    { unfold Py.strip. cbn [Py.lstrip].
      change (Py.isspace "-") with false. cbv iota.
      apply rstrip_cons; [apply rstrip_digits, Hd|apply str_nonempty]. }
    unfold Py.int. rewrite Hs. cbv iota beta.
    assert (Hnil : N.to_uint (Z.to_N (- n)) <> Nil).
    { destruct (Z.to_N (- n)); [discriminate|apply DecimalPos.Unsigned.to_uint_nonnil]. }
    unfold Py.str. rewrite (int_digits_uint _ true Hnil). cbn [option_map].
    change (Pos.of_uint (N.to_uint (Z.to_N (- n))))
      with (N.of_uint (N.to_uint (Z.to_N (- n)))).
    rewrite DecimalN.Unsigned.of_to, Z2N.id by lia. f_equal. lia.
  - apply Z.ltb_ge in E. apply int_str, E.
Qed.

Lemma number_line kw w :
  kw = "DELAY" \/ kw = "DEFAULT_DELAY" \/ kw = "DEFAULTDELAY" ->
  no_space w = true -> w <> "" ->
  let line := (kw ++ " " ++ w)%string in
  Py.strip line = line /\ int_arg line = Py.int w.
Proof.
  intros Hkw Hw Hne line.
  assert (Hr : Py.rstrip line = line).
  { unfold line. apply rstrip_prefix; [|discriminate].
    apply rstrip_cons; [apply rstrip_no_space, Hw|exact Hne]. }
  split.
  - unfold Py.strip.
    replace (Py.lstrip line) with line; [exact Hr|].
    destruct Hkw as [-> | [-> | ->]]; reflexivity.
  - unfold int_arg.
    replace (Py.split line) with [kw; w]; [reflexivity|].
    rewrite <- (split_no_space w Hw Hne).
    destruct Hkw as [-> | [-> | ->]]; reflexivity.
Qed.

Lemma try_except_DELAY line_num rest v :
  try_except line_num ("DELAY" ++ rest) v =
  match int_arg ("DELAY" ++ rest) with
  | inl e => (v, [ErrorOnLine line_num e])
  | inr n => (set_payload v (payload v ++ encode_delay n), [])
  end.
Proof.
  unfold try_except, try_block.
  change (Py.startswith ("DELAY" ++ rest) "DEFAULT_DELAY") with false.
  change (Py.startswith ("DELAY" ++ rest) "DEFAULTDELAY") with false.
  change (Py.startswith ("DELAY" ++ rest) "DELAY") with (Py.startswith rest "").
  rewrite startswith_empty. cbn [orb].
  destruct (int_arg ("DELAY" ++ rest)); reflexivity.
Qed.

Lemma try_except_DEFAULT_DELAY line_num line v :
  is_default_delay line = true ->
  try_except line_num line v =
  match int_arg line with
  | inl e => (v, [ErrorOnLine line_num e])
  | inr n => (set_default_delay v n, [])
  end.
Proof.
  intros H. unfold try_except, try_block. unfold is_default_delay in H.
  rewrite H. destruct (int_arg line); reflexivity.
Qed.

Lemma skipped_number_line line :
  Py.startswith line "DELAY" || is_default_delay line = true ->
  skipped line = false.
Proof.
  unfold is_default_delay. intros H.
  repeat (apply orb_prop in H; destruct H as [H|H]);
    apply startswith_inv in H; destruct H as [rest ->]; reflexivity.
Qed.

(** X14: for every integer [n], written the way Python prints it, the line
    [DELAY n] appends [encode_delay n] after the default delay (nothing of
    its own when [n <= 0]), and [DEFAULT_DELAY n] and [DEFAULTDELAY n] set
    the default delay to [n] and append only the delay that was in force;
    none of them prints anything. *)
Theorem number_lines :
  forall line_num n v,
    loop_body line_num ("DELAY " ++ str_int n) v =
      (set_payload (add_default_delay v)
         (payload (add_default_delay v) ++ encode_delay n), []) /\
    loop_body line_num ("DEFAULT_DELAY " ++ str_int n) v =
      (mkVars (payload (add_default_delay v)) n, []) /\
    loop_body line_num ("DEFAULTDELAY " ++ str_int n) v =
      (mkVars (payload (add_default_delay v)) n, []) /\
    (if n <=? 0
     then fst (loop_body line_num ("DELAY " ++ str_int n) v) = add_default_delay v
     else True).
Proof.
  intros line_num n v.
  destruct (str_int_word n) as [Hw Hne].
  assert (Hdelay : loop_body line_num ("DELAY " ++ str_int n) v =
      (set_payload (add_default_delay v)
         (payload (add_default_delay v) ++ encode_delay n), [])).
  { destruct (number_line "DELAY" (str_int n) ltac:(auto) Hw Hne) as [Hs Hi].
    unfold loop_body.
    change ("DELAY " ++ str_int n)%string with ("DELAY" ++ " " ++ str_int n)%string.
    rewrite Hs. change (skipped ("DELAY" ++ " " ++ str_int n)) with false. cbv iota.
    rewrite try_except_DELAY, Hi, int_str_int. reflexivity. }
  split; [exact Hdelay|]. split; [|split].
  - destruct (number_line "DEFAULT_DELAY" (str_int n) ltac:(auto) Hw Hne) as [Hs Hi].
    unfold loop_body.
    change ("DEFAULT_DELAY " ++ str_int n)%string
      with ("DEFAULT_DELAY" ++ " " ++ str_int n)%string.
    rewrite Hs. change (skipped ("DEFAULT_DELAY" ++ " " ++ str_int n)) with false.
    cbv iota. rewrite try_except_DEFAULT_DELAY by reflexivity.
    rewrite Hi, int_str_int. reflexivity.
  - destruct (number_line "DEFAULTDELAY" (str_int n) ltac:(auto) Hw Hne) as [Hs Hi].
    unfold loop_body.
    change ("DEFAULTDELAY " ++ str_int n)%string
      with ("DEFAULTDELAY" ++ " " ++ str_int n)%string.
    rewrite Hs. change (skipped ("DEFAULTDELAY" ++ " " ++ str_int n)) with false.
    cbv iota. rewrite try_except_DEFAULT_DELAY by reflexivity.
    rewrite Hi, int_str_int. reflexivity.
  - destruct (n <=? 0) eqn:E; [|exact I].
    apply Z.leb_le in E. rewrite Hdelay. cbn [fst].
    rewrite (encode_delay_nonpos n E), app_nil_r.
    unfold set_payload. destruct (add_default_delay v). reflexivity.
Qed.

(** X15: a line that starts with DELAY, DEFAULT_DELAY or DEFAULTDELAY and
    has no second token (the keyword alone, or the number glued to it)
    raises the index error of [line.split()[1]]: the error is reported with
    the line number and nothing but the default delay is added. *)
Theorem number_line_without_argument (line_num : nat) (line : string) (v : vars) :
  Py.startswith (Py.strip line) "DELAY" || is_default_delay (Py.strip line) = true ->
  (List.length (Py.split (Py.strip line)) <= 1)%nat ->
  loop_body line_num line v =
    (add_default_delay v, [ErrorOnLine line_num Py.IndexError]).
Proof.
  intros Hkw Hlen. unfold loop_body. rewrite (skipped_number_line _ Hkw).
  assert (Hi : int_arg (Py.strip line) = inl Py.IndexError).
  { unfold int_arg, Py.index.
    destruct (Py.split (Py.strip line)) as [|a [|b r]]; try reflexivity.
    simpl in Hlen. lia. }
  destruct (is_default_delay (Py.strip line)) eqn:Ed.
  - rewrite try_except_DEFAULT_DELAY, Hi by assumption. reflexivity.
  - rewrite orb_false_r in Hkw. apply startswith_inv in Hkw.
    destruct Hkw as [rest Hrest]. rewrite Hrest in *.
    rewrite try_except_DELAY, Hi. reflexivity.
Qed.

Lemma number_line_without_argument_witness :
  loop_body 3 "DELAY500" (mkVars [4; 0] 10) =
    (mkVars [4; 0; 0; 10] 10, [ErrorOnLine 3 Py.IndexError]) /\
  loop_body 1 "DEFAULT_DELAY" init = (init, [ErrorOnLine 1 Py.IndexError]).
Proof.
  split.
  - apply (number_line_without_argument 3 "DELAY500" (mkVars [4; 0] 10));
      [reflexivity|simpl; lia].
  - apply (number_line_without_argument 1 "DEFAULT_DELAY" init);
      [reflexivity|simpl; lia].
Defined.

(** ** Diagnostics of a script *)







(** ** Letter case of keys and combos *)

Lemma upper_char_spelling c :
  exists b : bool,
    c = if b then Py.upper_char c else Py.lower_char (Py.upper_char c).
Proof.
  destruct c as [[] [] [] [] [] [] [] []];
    first [exists true; reflexivity | exists false; reflexivity].
Qed.

Lemma lower_upper_char c : Py.lower_char (Py.upper_char c) = Py.lower_char c.
Proof. destruct c as [[] [] [] [] [] [] [] []]; reflexivity. Qed.

Lemma upper_upper_char c : Py.upper_char (Py.upper_char c) = Py.upper_char c.
Proof. destruct c as [[] [] [] [] [] [] [] []]; reflexivity. Qed.

Lemma isspace_upper_char c : Py.isspace (Py.upper_char c) = Py.isspace c.
Proof. destruct c as [[] [] [] [] [] [] [] []]; reflexivity. Qed.

Lemma lower_upper s : Py.lower (Py.upper s) = Py.lower s.
Proof.
  induction s as [|c r IH]; [reflexivity|].
  simpl. rewrite lower_upper_char, IH. reflexivity.
Qed.

Lemma upper_upper s : Py.upper (Py.upper s) = Py.upper s.
Proof.
  induction s as [|c r IH]; [reflexivity|].
  simpl. rewrite upper_upper_char, IH. reflexivity.
Qed.

Lemma shift_lookup_single k v :
  lookup SHIFT_CHARS k = Some v -> exists c, k = String c "".
Proof.
  intros H. apply lookup_In in H. unfold SHIFT_CHARS in H. simpl in H.
  repeat (destruct H as [H|H]; [injection H as <- <-; eexists; reflexivity|]).
  contradiction.
Qed.

(** For two spellings of a character, each [u] or its small letter: when
    the first is not an unshifted character once lower-cased, the shifted
    table has the same answer for both. *)
Lemma shift_lookup_spellings u (b1 b2 : bool) :
  lookup KEYCODES
    (String (Py.lower_char (if b1 then u else Py.lower_char u)) "") = None ->
  lookup SHIFT_CHARS (String (if b1 then u else Py.lower_char u) "") =
  lookup SHIFT_CHARS (String (if b2 then u else Py.lower_char u) "").
Proof.
  destruct u as [[] [] [] [] [] [] [] []]; destruct b1, b2; vm_compute;
    first [reflexivity | discriminate].
Qed.

Lemma shift_lookup_case k1 k2 :
  Py.upper k1 = Py.upper k2 ->
  lookup KEYCODES (Py.lower k1) = None ->
  lookup SHIFT_CHARS k1 = lookup SHIFT_CHARS k2.
Proof.
  intros Hup Hlow.
  destruct k1 as [|c1 [|d1 r1]], k2 as [|c2 [|d2 r2]]; try discriminate Hup;
    try reflexivity.
  - cbn [Py.upper] in Hup. injection Hup as Hc.
    cbn [Py.lower] in Hlow.
    destruct (upper_char_spelling c1) as [b1 E1].
    destruct (upper_char_spelling c2) as [b2 E2].
    rewrite <- Hc in E2. remember (Py.upper_char c1) as u eqn:Hu. clear Hu Hc.
    subst c1 c2. apply shift_lookup_spellings, Hlow.
  - destruct (lookup SHIFT_CHARS (String c1 (String d1 r1))) as [v|] eqn:E1.
    { apply shift_lookup_single in E1. destruct E1 as [c E1]. discriminate E1. }
    destruct (lookup SHIFT_CHARS (String c2 (String d2 r2))) as [v|] eqn:E2;
      [|reflexivity].
    apply shift_lookup_single in E2. destruct E2 as [c E2]. discriminate E2.
Qed.

Lemma get_key_code_case k1 k2 :
  Py.upper k1 = Py.upper k2 -> get_key_code k1 = get_key_code k2.
Proof.
  intros Hup. unfold get_key_code. rewrite Hup.
  destruct (lookup SPECIAL_KEYS (Py.upper k2)); [reflexivity|].
  assert (Hlow : Py.lower k1 = Py.lower k2).
  { rewrite <- (lower_upper k1), <- (lower_upper k2), Hup. reflexivity. }
  rewrite <- Hlow.
  destruct (lookup KEYCODES (Py.lower k1)) eqn:E; [reflexivity|].
  rewrite (shift_lookup_case k1 k2 Hup E). reflexivity.
Qed.

Lemma split_upper s : Py.split (Py.upper s) = map Py.upper (Py.split s).
Proof.
  induction s as [|c r IH]; [reflexivity|].
  cbn [Py.upper Py.split]. rewrite isspace_upper_char.
  destruct (Py.isspace c); [exact IH|].
  destruct r as [|c' r']; [reflexivity|].
  change (Py.upper (String c' r')) with (String (Py.upper_char c') (Py.upper r')) at 1.
  cbv iota. rewrite isspace_upper_char.
  change (String (Py.upper_char c') (Py.upper r')) with (Py.upper (String c' r')).
  rewrite IH.
  destruct (Py.isspace c'); [reflexivity|].
  destruct (Py.split (String c' r')); reflexivity.
Qed.

Lemma modifier_bit_upper part : modifier_bit (Py.upper part) = modifier_bit part.
Proof. unfold modifier_bit. rewrite upper_upper. reflexivity. Qed.

Lemma combo_body_upper part s :
  fst (combo_body (Py.upper part) s) = fst (combo_body part s).
Proof.
  destruct s as [m k]. rewrite !combo_body_bit, modifier_bit_upper.
  destruct (modifier_bit part); [reflexivity|].
  rewrite (get_key_code_case (Py.upper part) part (upper_upper part)).
  destruct (get_key_code part); reflexivity.
Qed.

Lemma combo_loop_upper parts : forall s,
  fst (combo_loop (map Py.upper parts) s) = fst (combo_loop parts s).
Proof.
  induction parts as [|part rest IH]; intros s; [reflexivity|].
  cbn [map combo_loop]. rewrite !fst_bind, combo_body_upper. apply IH.
Qed.

Lemma parse_modifier_combo_upper line :
  fst (parse_modifier_combo (Py.upper line)) = fst (parse_modifier_combo line).
Proof.
  rewrite !parse_modifier_combo_fst. cbv zeta.
  rewrite split_upper, combo_loop_upper. reflexivity.
Qed.

(** X17: key names and combo lines do not depend on letter case: two
    tokens that differ only in the case of their letters resolve to the same
    key code, and two combo lines that differ only in case give the same
    instruction (their warnings quote the tokens as written). *)
Theorem keys_ignore_case :
  (forall k1 k2,
     Py.upper k1 = Py.upper k2 -> get_key_code k1 = get_key_code k2) /\
  (forall l1 l2,
     Py.upper l1 = Py.upper l2 ->
     fst (parse_modifier_combo l1) = fst (parse_modifier_combo l2)).
Proof.
  split; [exact get_key_code_case|].
  intros l1 l2 H.
  rewrite <- (parse_modifier_combo_upper l1), <- (parse_modifier_combo_upper l2), H.
  reflexivity.
Qed.

Lemma keys_ignore_case_witness :
  get_key_code "pageUP" = get_key_code "PageUp" /\
  fst (parse_modifier_combo "Ctrl alt Delete") =
  fst (parse_modifier_combo "CTRL ALT delete").
Proof.
  destruct keys_ignore_case as [Hkey Hcombo]. split.
  - apply (Hkey "pageUP" "PageUp"). reflexivity.
  - apply (Hcombo "Ctrl alt Delete" "CTRL ALT delete"). reflexivity.
Defined.

(** ** Combo lines in a script *)

Lemma upper_char_inv c x :
  Py.upper_char c = x -> c = x \/ c = Py.lower_char x.
Proof.
  intros <-. destruct (upper_char_spelling c) as [[] E]; auto.
Qed.

Lemma is_combo_first_two line :
  is_combo line = true ->
  exists c1 c2 rest,
    line = String c1 (String c2 rest) /\
    In (String (Py.upper_char c1) (String (Py.upper_char c2) ""))
       ["CT"; "CO"; "AL"; "SH"; "GU"; "WI"; "CM"].
Proof.
  unfold is_combo, MODIFIER_PREFIXES. intros H.
  destruct line as [|c1 [|c2 rest]].
  - discriminate H.
  - cbn in H. rewrite !andb_false_r in H. discriminate H.
  - exists c1, c2, rest. split; [reflexivity|].
    cbn [existsb] in H.
    repeat (apply orb_prop in H; destruct H as [H|H]);
      try discriminate H;
      apply startswith_inv in H; destruct H as [r H];
      cbn [Py.upper String.append] in H; injection H as -> -> _;
      cbn; tauto.
Qed.

Lemma combo_line_dispatch line :
  is_combo line = true ->
  skipped line = false /\
  is_default_delay line = false /\
  Py.startswith line "DELAY" = false /\
  Py.startswith line "STRING " = false /\
  Py.startswith line "STRINGLN " = false /\
  lookup SPECIAL_KEYS line = None.
Proof.
  intros H. destruct (is_combo_first_two line H) as (c1 & c2 & rest & -> & Hin).
  cbn [In] in Hin.
  repeat (destruct Hin as [Hin|Hin];
          [injection Hin as H1 H2; symmetry in H1; symmetry in H2;
           apply upper_char_inv in H1; apply upper_char_inv in H2;
           destruct H1 as [-> | ->], H2 as [-> | ->];
           repeat split; reflexivity|]).
  contradiction.
Qed.

Lemma set_payload_same v : set_payload v (payload v ++ []) = v.
Proof. unfold set_payload. rewrite app_nil_r. destruct v. reflexivity. Qed.

Lemma try_except_combo line_num line v :
  is_combo line = true ->
  try_except line_num line v =
  (set_payload v (payload v ++ fst (parse_modifier_combo line)),
   snd (parse_modifier_combo line)).
Proof.
  intros H.
  destruct (combo_line_dispatch line H) as (_ & Hd & H1 & H2 & H3 & H4).
  unfold try_except, try_block. unfold is_default_delay in Hd. unfold is_combo in H.
  rewrite Hd, H1, H2, H3, H4, H.
  unfold bind, ret. destruct (parse_modifier_combo line) as [[|a r] o]; cbn [fst snd].
  - rewrite set_payload_same, !app_nil_r. reflexivity.
  - rewrite !app_nil_r. reflexivity.
Qed.

(** X18: every line whose text, trimmed and upper-cased, starts with CTRL,
    CONTROL, ALT, SHIFT, GUI, WINDOWS, COMMAND or CMD is taken as a combo
    line, whatever its letter case and whatever follows the keyword: it
    appends what the resolver gives for it after the default delay, it is
    never an unknown command and never an error; and two such lines that
    differ only in letter case append the same bytes. *)
Theorem combo_line (line_num : nat) (line : string) (v : vars) :
  is_combo (Py.strip line) = true ->
  loop_body line_num line v =
    (set_payload (add_default_delay v)
       (payload (add_default_delay v) ++ fst (parse_modifier_combo (Py.strip line))),
     snd (parse_modifier_combo (Py.strip line))) /\
  existsb is_line_error (snd (loop_body line_num line v)) = false /\
  (forall n2 line2,
     Py.upper (Py.strip line2) = Py.upper (Py.strip line) ->
     fst (loop_body n2 line2 v) = fst (loop_body line_num line v)).
Proof.
  intros H.
  assert (E : forall n l, is_combo (Py.strip l) = true ->
            loop_body n l v =
            (set_payload (add_default_delay v)
               (payload (add_default_delay v) ++ fst (parse_modifier_combo (Py.strip l))),
             snd (parse_modifier_combo (Py.strip l)))).
  { intros n l Hl. unfold loop_body.
    destruct (combo_line_dispatch _ Hl) as (Hs & _). rewrite Hs.
    apply try_except_combo, Hl. }
  split; [apply E, H|]. split.
  - rewrite (E _ _ H). apply parse_modifier_combo_diags.
  - intros n2 line2 Hup.
    assert (H2 : is_combo (Py.strip line2) = true).
    { unfold is_combo in *. rewrite Hup. exact H. }
    rewrite (E _ _ H), (E _ _ H2). cbn [fst]. f_equal. f_equal.
    rewrite <- (parse_modifier_combo_upper (Py.strip line2)), Hup.
    apply parse_modifier_combo_upper.
Qed.

Lemma combo_line_witness :
  loop_body 2 " gui r " (mkVars [4; 0] 20) = (mkVars [4; 0; 0; 20; 0x15; 8] 20, []) /\
  loop_body 1 "ALTERNATE" init = (init, [UnknownKey "ALTERNATE"]).
Proof.
  split.
  - apply (combo_line 2 " gui r " (mkVars [4; 0] 20)). reflexivity.
  - apply (combo_line 1 "ALTERNATE" init). reflexivity.
Defined.

(** ** REPEAT with a count that is not positive *)

Lemma repeat_line_word kw w :
  kw = "REPEAT" \/ kw = "REPLAY" ->
  no_space w = true -> w <> "" ->
  let line := (kw ++ " " ++ w)%string in
  Py.strip line = line /\
  is_repeat line = true /\
  (if (1 <? List.length (Py.split line))%nat then int_arg line else inr 1) = Py.int w.
Proof.
  intros Hkw Hw Hne line.
  assert (Hsplit : Py.split line = [kw; w]).
  { rewrite <- (split_no_space w Hw Hne).
    destruct Hkw as [-> | ->]; reflexivity. }
  split; [|split].
  - unfold Py.strip.
    replace (Py.lstrip line) with line by (destruct Hkw as [-> | ->]; reflexivity).
    unfold line. apply rstrip_prefix; [|discriminate].
    apply rstrip_cons; [apply rstrip_no_space, Hw|exact Hne].
  - destruct Hkw as [-> | ->]; unfold is_repeat, line.
    + change (Py.startswith ("REPEAT" ++ " " ++ w) "REPEAT") with true. reflexivity.
    + change (Py.startswith ("REPLAY" ++ " " ++ w) "REPLAY") with true.
      apply orb_true_r.
  - unfold int_arg. rewrite Hsplit. reflexivity.
Qed.

Lemma copies_nonpos n x : n <= 0 -> copies n x = [].
Proof.
  intros H. unfold copies. replace (Z.to_nat n) with 0%nat by lia. reflexivity.
Qed.

Lemma loop_body_repeat_nonpos line_num kw n v :
  kw = "REPEAT" \/ kw = "REPLAY" ->
  n <= 0 ->
  loop_body line_num (kw ++ " " ++ str_int n) v = (add_default_delay v, []).
Proof.
  intros Hkw Hn. destruct (str_int_word n) as [Hw Hne].
  destruct (repeat_line_word kw (str_int n) Hkw Hw Hne) as (Hs & Hr & Hc).
  unfold loop_body. rewrite Hs, (skipped_repeat _ Hr).
  rewrite (try_except_repeat _ _ _ n Hr) by (rewrite Hc; apply int_str_int).
  rewrite (copies_nonpos n _ Hn), set_payload_same.
  destruct (2 <=? _)%nat; reflexivity.
Qed.

(** X19: REPEAT and REPLAY with a count of zero or less, on any payload,
    repeat nothing: the line adds only the default delay and prints
    nothing. *)
Theorem repeat_nonpositive_count (line_num : nat) (n : Z) (v : vars) :
  n <= 0 ->
  loop_body line_num ("REPEAT " ++ str_int n) v = (add_default_delay v, []) /\
  loop_body line_num ("REPLAY " ++ str_int n) v = (add_default_delay v, []).
Proof.
  intros Hn. split.
  - apply (loop_body_repeat_nonpos line_num "REPEAT"); auto.
  - apply (loop_body_repeat_nonpos line_num "REPLAY"); auto.
Qed.

Lemma repeat_nonpositive_count_witness :
  loop_body 2 "REPEAT -3" (mkVars [4; 2] 0) = (mkVars [4; 2] 0, []) /\
  loop_body 2 "REPLAY -3" (mkVars [4; 2] 0) = (mkVars [4; 2] 0, []).
Proof. apply (repeat_nonpositive_count 2 (-3) (mkVars [4; 2] 0)). lia. Defined.

(** ** A text over several STRING lines *)

Lemma compile_loop_strings lines : forall texts line_num v,
  Forall2 (fun line text => Py.strip line = ("STRING " ++ text)%string) lines texts ->
  default_delay v <= 0 ->
  fst (compile_loop line_num lines v) =
    set_payload v (payload v ++ fst (encode_string (fold_right String.append "" texts))) /\
  snd (compile_loop line_num lines v) =
    snd (encode_string (fold_right String.append "" texts)).
Proof.
  induction lines as [|line rest IH]; intros texts line_num v HF Hd.
  - inversion HF; subst. cbn. rewrite set_payload_same. auto.
  - inversion HF as [|l t ls ts Hl Hrest]; subst.
    cbn [compile_loop fold_right]. rewrite fst_bind, snd_bind.
    rewrite (loop_body_STRING _ _ _ _ Hl), (add_default_delay_off v Hd).
    cbn [fst snd].
    destruct (IH ts (S line_num) (set_payload v (payload v ++ fst (encode_string t)))
                Hrest Hd) as [E1 E2].
    rewrite E1, E2, encode_string_app_fst, encode_string_app_snd.
    unfold set_payload. cbn [payload default_delay]. rewrite app_assoc. auto.
Qed.

(** X20: with no default delay, a text typed by several STRING lines in a
    row gives the same bytes and the same warnings as the whole text
    encoded at once: cutting a text into lines changes nothing. *)
Theorem strings_concatenate (lines texts : list string) :
  Forall2 (fun line text => Py.strip line = ("STRING " ++ text)%string) lines texts ->
  compile_script lines = encode_string (fold_right String.append "" texts).
Proof.
  intros HF. unfold compile_script.
  destruct (compile_loop_strings lines texts 1 init HF ltac:(simpl; lia)) as [E1 E2].
  unfold bind, ret.
  destruct (compile_loop 1 lines init) as [v o]. cbn [fst snd] in E1, E2.
  subst v o. cbn [payload set_payload init List.app]. rewrite app_nil_r.
  destruct (encode_string _). reflexivity.
Qed.

Lemma strings_concatenate_witness :
  compile_script ["STRING Hello, "; " STRING  world"] = encode_string "Hello, world".
Proof.
  apply (strings_concatenate ["STRING Hello, "; " STRING  world"] ["Hello,"; " world"]).
  repeat constructor.
Defined.
